(** * open-tale-api: the Flask proxy of [src/app.py]

    A shallow embedding of the request handlers of [app.py] and the
    properties of its authentication gate, its parameter mapping and its
    [generate] handler.

    Python values are embedded as the inductive type [pyval] (what
    [json.loads] can build); a Python exception that leaves a function is
    the [Raise] outcome of the error monad [exc], also when it comes out
    of the library call [request.get_json]; the upstream provider
    ([google.generativeai]) is a variable of the section that defines
    [generate], and every invocation of it is recorded in a call log. *)

From Stdlib Require Import ZArith String Ascii List Bool Lia.
From Stdlib Require Import Floats.SpecFloat.
From stdpp Require Import gmap strings list fin_maps.

Set Warnings "-register-all".
Local Open Scope string_scope.
Local Open Scope Z_scope.

(** ** Python values *)

(** The values [request.get_json] returns: [None], booleans, integers,
    IEEE doubles, strings (sequences of characters below 256), lists and
    dictionaries keyed by strings. *)
Inductive pyval : Type :=
  | PNone
  | PBool (b : bool)
  | PInt (z : Z)
  | PFloat (f : spec_float)
  | PStr (s : string)
  | PList (l : list pyval)
  | PDict (d : gmap string pyval).

(** Truth value of an object, as [not], [or] and [if] test it. *)
Definition truthy (v : pyval) : bool :=
  match v with
  | PNone => false
  | PBool b => b
  | PInt z => negb (z =? 0)
  | PFloat (S754_zero _) => false
  | PFloat _ => true
  | PStr EmptyString => false
  | PStr _ => true
  | PList [] => false
  | PList _ => true
  | PDict d => negb (Nat.eqb (size d) 0)
  end.

(** [a or b] *)
Definition py_or (a b : pyval) : pyval := if truthy a then a else b.

(** [v is not None] *)
Definition is_not_None (v : pyval) : bool :=
  match v with PNone => false | _ => true end.

(** Values that are a string or [None] (headers, query arguments,
    environment variables) are embedded as [option string]. *)
Definition truthy_str (o : option string) : bool :=
  match o with
  | Some (String _ _) => true
  | _ => false
  end.

Definition str_or (a b : option string) : option string :=
  if truthy_str a then a else b.

(** ** Exceptions *)

(** The exceptions the handlers raise themselves, [RecursionError], which
    the JSON decoder raises on a body nested too deeply, and any other
    exception class, by name. *)
Inductive PyExn : Type :=
  | AttributeError
  | TypeError
  | KeyError
  | RecursionError
  | OtherError (name : string).

Inductive exc (A : Type) : Type :=
  | Ret (a : A)
  | Raise (e : PyExn).
Arguments Ret {A} a.
Arguments Raise {A} e.

#[global] Instance exc_ret : MRet exc := @Ret.
#[global] Instance exc_bind : MBind exc := fun A B f m =>
  match m with
  | Ret a => f a
  | Raise e => Raise e
  end.

(** ** Methods and operators used by [app.py] *)

(** [v.get(k)]: only a dict has the method. *)
Definition py_get (v : pyval) (k : string) : exc pyval :=
  match v with
  | PDict d => Ret (default PNone (d !! k))
  | _ => Raise AttributeError
  end.

(** [str.isspace] on the characters below 256. *)
Definition isspace (c : ascii) : bool :=
  let n := N_of_ascii c in
  ((9 <=? n) && (n <=? 13) || (28 <=? n) && (n <=? 32)
   || (n =? 133) || (n =? 160))%N.

Fixpoint lstrip (s : string) : string :=
  match s with
  | EmptyString => EmptyString
  | String c s' => if isspace c then lstrip s' else s
  end.

Fixpoint rstrip (s : string) : string :=
  match s with
  | EmptyString => EmptyString
  | String c s' =>
      match rstrip s' with
      | EmptyString => if isspace c then EmptyString else String c EmptyString
      | r => String c r
      end
  end.

Definition strip (s : string) : string := rstrip (lstrip s).

(** [v.strip()]: only a string has the method. *)
Definition py_strip (v : pyval) : exc string :=
  match v with
  | PStr s => Ret (strip s)
  | _ => Raise AttributeError
  end.

(** [s.startswith(p)] *)
Fixpoint startswith (p s : string) : bool :=
  match p, s with
  | EmptyString, _ => true
  | String a p', String b s' => if Ascii.eqb a b then startswith p' s' else false
  | String _ _, EmptyString => false
  end.

(** [s[n:]] *)
Fixpoint slice_from (n : nat) (s : string) : string :=
  match n, s with
  | O, _ => s
  | S n', String _ s' => slice_from n' s'
  | S _, EmptyString => EmptyString
  end.

(** [k in s] for two strings: substring test. *)
Fixpoint is_substring (k s : string) : bool :=
  startswith k s ||
  match s with
  | EmptyString => false
  | String _ s' => is_substring k s'
  end.

(** [v == k] for a string [k]. *)
Definition eq_str (k : string) (v : pyval) : bool :=
  match v with
  | PStr s => String.eqb s k
  | _ => false
  end.

(** [k in container] for a string [k]. *)
Definition py_contains (k : string) (container : pyval) : exc bool :=
  match container with
  | PDict d => Ret (bool_decide (is_Some (d !! k)))
  | PList l => Ret (existsb (eq_str k) l)
  | PStr s => Ret (is_substring k s)
  | _ => Raise TypeError
  end.

(** [container[k]] for a string [k]. *)
Definition py_getitem (container : pyval) (k : string) : exc pyval :=
  match container with
  | PDict d =>
      match d !! k with
      | Some v => Ret v
      | None => Raise KeyError
      end
  | _ => Raise TypeError
  end.

(** ** Configuration, requests, responses *)

(** The two module-level settings, read once from the environment. *)
Record Config : Type := {
  GOOGLE_API_KEY : option string;
  INTERNAL_API_KEY : option string
}.

(** [os.getenv(a) or os.getenv(b)] for both settings. *)
Definition load_config (env : gmap string string) : Config :=
  {| GOOGLE_API_KEY := str_or (env !! "GOOGLE_API_KEY") (env !! "GOOGLE_API_TOKEN");
     INTERNAL_API_KEY := str_or (env !! "INTERNAL_API_KEY") (env !! "API_AUTH_TOKEN") |}.

(** What the handlers read of a Flask request. [headers] and [args] give
    the value [.get(name)] returns for a header or a query parameter, if
    any; [get_json] is the outcome of [request.get_json(silent=True)]:
    [Ret PNone] for an absent body and for a body whose decoding fails
    with a [ValueError], which [silent=True] turns into [None];
    [Ret v] for a body that decodes to [v]; [Raise e] when the call
    raises an exception that [silent=True] does not silence, such as the
    [RecursionError] of the decoder on a body, well-formed or not, that
    is nested too deeply. *)
Record Request : Type := {
  method : string;
  path : string;
  headers : gmap string string;
  args : gmap string string;
  get_json : exc pyval
}.

Inductive Body : Type :=
  | Text (s : string)
  | Json (v : pyval).

Record Response : Type := {
  body : Body;
  status : Z
}.

(** [jsonify(d), code] *)
Definition jsonify (fields : list (string * pyval)) (code : Z) : Response :=
  {| body := Json (PDict (list_to_map fields)); status := code |}.

(** ** The authentication gate *)

Definition auth_error : Response :=
  jsonify
    [("error", PStr "Invalid or missing internal API key");
     ("hint", PStr "Provide Authorization: Bearer <INTERNAL_API_KEY> or x-api-key, or api_key in query/body")]
    401.

(** [auth_header[7:] if auth_header.startswith('Bearer ') else None] *)
Definition bearer_of (auth_header : string) : option string :=
  if startswith "Bearer " auth_header then Some (slice_from 7 auth_header) else None.

(** [body_json.get('api_key') if isinstance(body_json.get('api_key'), str) else None] *)
Definition body_key_of (body_json : pyval) : exc (option string) :=
  v ← py_get body_json "api_key";
  match v with
  | PStr _ =>
      v' ← py_get body_json "api_key";
      mret (match v' with PStr s => Some s | _ => None end)
  | _ => mret None
  end.

(** [req.get_json(silent=True) or {}] *)
Definition json_or_empty (req : Request) : exc pyval :=
  v ← get_json req;
  mret (py_or v (PDict ∅)).

(** The four channels of a request, in the order the gate reads them. *)
Record Channels : Type := {
  bearer : option string;
  x_api_key : option string;
  query_key : option string;
  body_key : option string
}.

Definition read_channels (req : Request) : exc Channels :=
  let auth_header := default "" (headers req !! "Authorization") in
  let bearer := bearer_of auth_header in
  let x_api_key := headers req !! "x-api-key" in
  let query_key := args req !! "api_key" in
  body_json ← json_or_empty req;
  body_key ← body_key_of body_json;
  mret {| bearer := bearer; x_api_key := x_api_key;
          query_key := query_key; body_key := body_key |}.

(** [bearer or x_api_key or query_key or body_key] *)
Definition provided_of (ch : Channels) : option string :=
  str_or (str_or (str_or (bearer ch) (x_api_key ch)) (query_key ch)) (body_key ch).

Definition _check_internal_auth (cfg : Config) (req : Request) : exc (option Response) :=
  if negb (truthy_str (INTERNAL_API_KEY cfg)) then mret None
  else if String.eqb (method req) "OPTIONS" || String.eqb (path req) "/health" then mret None
  else
    ch ← read_channels req;
    let provided := provided_of ch in
    if negb (truthy_str provided) || negb (bool_decide (provided = INTERNAL_API_KEY cfg))
    then mret (Some auth_error)
    else mret None.

(** ** The [health] handler *)

(** [now] is [datetime.now().isoformat()]. *)
Definition health (cfg : Config) (now : string) : Response :=
  jsonify
    [("status", PStr "healthy");
     ("timestamp", PStr now);
     ("service", PStr "Gemini Proxy API (Flask)");
     ("llm_integration", PStr "Google Generative AI");
     ("api_key_status",
      PStr (if truthy_str (GOOGLE_API_KEY cfg) then "configured" else "not configured"));
     ("model", PStr "gemini-1.5-flash-latest")]
    200.

(** ** The parameter mapping (lines 86-98 of [generate]) *)

(** [if src in parameters: generation_config[dst] = parameters[src]] *)
Definition copy_key (parameters : pyval) (src dst : string)
    (generation_config : gmap string pyval) : exc (gmap string pyval) :=
  present ← py_contains src parameters;
  if (present : bool) then
    v ← py_getitem parameters src;
    mret (<[dst := v]> generation_config)
  else mret generation_config.

(** [{k: v for k, v in generation_config.items() if v is not None}] *)
Definition clean_None (generation_config : gmap string pyval) : gmap string pyval :=
  filter (fun kv => is_not_None kv.2 = true) generation_config.

Definition map_parameters (parameters : pyval) : exc (gmap string pyval) :=
  gc ← copy_key parameters "temperature" "temperature" ∅;
  gc ← copy_key parameters "top_p" "top_p" gc;
  gc ← copy_key parameters "top_k" "top_k" gc;
  gc ← copy_key parameters "max_new_tokens" "max_output_tokens" gc;
  mret (clean_None gc).

(** ** The upstream provider *)

(** What the [try] block of [generate] observes of
    [genai.GenerativeModel(model_name).generate_content(inputs,
    generation_config=...)]: an exception with its message [str(e)]
    (raised anywhere inside the block), or a response object with the
    value of its [text] attribute, if it has one, and the result of its
    [to_dict()] method, if it has one. *)
Inductive UpstreamResult : Type :=
  | URaise (msg : string)
  | UReturn (text : option pyval) (to_dict : option pyval).

(** One invocation of the provider. *)
Record UpstreamCall : Type := {
  call_model : pyval;
  call_inputs : string;
  call_config : gmap string pyval
}.

(** ** The [generate] handler *)

Definition default_inputs : string :=
  "Write a short, whimsical story suitable for kids.".

Definition default_model : string := "gemini-1.5-flash-latest".

Definition not_configured_error : Response :=
  jsonify [("error", PStr "GOOGLE_API_KEY is not configured on the server")] 500.

Definition missing_inputs_error : Response :=
  jsonify [("error", PStr "Missing 'inputs' parameter")] 400.

Definition upstream_error (msg : string) : Response :=
  jsonify [("error", PStr msg)] 500.

Definition empty_response_error (to_dict : option pyval) : Response :=
  jsonify [("error", PStr "Empty response"); ("raw", default PNone to_dict)] 502.

Definition success_response (text : pyval) : Response :=
  jsonify
    [("candidates",
      PList [PDict (list_to_map
        [("content", PDict (list_to_map
           [("parts", PList [PDict (list_to_map [("text", text)])]);
            ("role", PStr "model")]))])]);
     ("text", text)]
    200.

(** [(data.get('mode') or 'prompt').strip()] *)
Definition get_mode (data : pyval) : exc string :=
  v ← py_get data "mode";
  py_strip (py_or v (PStr "prompt")).

(** [(data.get('inputs') or '').strip()] *)
Definition get_inputs (data : pyval) : exc string :=
  v ← py_get data "inputs";
  py_strip (py_or v (PStr "")).

(** [data.get('model') or 'gemini-1.5-flash-latest'] *)
Definition get_model_name (data : pyval) : exc pyval :=
  v ← py_get data "model";
  mret (py_or v (PStr default_model)).

(** [data.get('parameters') or {}] *)
Definition get_parameters (data : pyval) : exc pyval :=
  v ← py_get data "parameters";
  mret (py_or v (PDict ∅)).

Section Generate.

Variable cfg : Config.

(** The provider, as a function of the arguments it is called with. *)
Variable upstream : pyval -> string -> gmap string pyval -> UpstreamResult.

(** The outcome of a handler: the response, or the exception that
    leaves it, and the invocations of the provider it made. *)
Definition Outcome : Type := exc Response * list UpstreamCall.

Definition no_call (r : exc Response) : Outcome := (r, []).

(** Lines 100-122: the [try] block. *)
Definition call_upstream (model_name : pyval) (inputs : string)
    (generation_config : gmap string pyval) : Outcome :=
  (match upstream model_name inputs generation_config with
   | URaise msg => Ret (upstream_error msg)
   | UReturn text to_dict =>
       let text := default PNone text in
       if negb (truthy text) then Ret (empty_response_error to_dict)
       else Ret (success_response text)
   end,
   [{| call_model := model_name; call_inputs := inputs;
       call_config := generation_config |}]).

(** Lines 75-122: the handler on the decoded body. *)
Definition generate_data (data : pyval) : Outcome :=
  match get_mode data with
  | Raise e => no_call (Raise e)
  | Ret mode =>
  match get_inputs data with
  | Raise e => no_call (Raise e)
  | Ret inputs =>
  match get_model_name data with
  | Raise e => no_call (Raise e)
  | Ret model_name =>
  match get_parameters data with
  | Raise e => no_call (Raise e)
  | Ret parameters =>
      if negb (String.eqb mode "random") && String.eqb inputs ""
      then no_call (Ret missing_inputs_error)
      else
        let inputs :=
          if String.eqb mode "random" && String.eqb inputs ""
          then default_inputs else inputs in
        match map_parameters parameters with
        | Raise e => no_call (Raise e)
        | Ret generation_config =>
            call_upstream model_name inputs generation_config
        end
  end end end end.

(** Lines 74-122: the handler once the provider key is known to be set. *)
Definition generate_body (req : Request) : Outcome :=
  match json_or_empty req with
  | Raise e => no_call (Raise e)
  | Ret data => generate_data data
  end.

Definition generate (req : Request) : Outcome :=
  if String.eqb (method req) "OPTIONS" then
    no_call (Ret {| body := Text ""; status := 204 |})
  else
    match _check_internal_auth cfg req with
    | Raise e => no_call (Raise e)
    | Ret (Some auth_err) => no_call (Ret auth_err)
    | Ret None =>
        if negb (truthy_str (GOOGLE_API_KEY cfg))
        then no_call (Ret not_configured_error)
        else generate_body req
    end.

End Generate.

(** * Vocabulary of the properties *)

(** ** The channels of a request *)

(** The four credential channels, read off the request: the token of a
    bearer [Authorization] header, the [x-api-key] header, the [api_key]
    query parameter and the string-valued [api_key] field of a JSON
    object body. *)
Definition bearer_channel (req : Request) : option string :=
  bearer_of (default "" (headers req !! "Authorization")).

Definition header_channel (req : Request) : option string :=
  headers req !! "x-api-key".

Definition query_channel (req : Request) : option string :=
  args req !! "api_key".

Definition body_field (d : gmap string pyval) : option string :=
  match d !! "api_key" with
  | Some (PStr s) => Some s
  | _ => None
  end.

Definition body_channel (req : Request) : option string :=
  match get_json req with
  | Ret (PDict d) => body_field d
  | _ => None
  end.

(** The gate is active: a secret is configured and the request is
    neither a pre-flight request nor a health check. *)
Definition gate_active (cfg : Config) (req : Request) : Prop :=
  truthy_str (INTERNAL_API_KEY cfg) = true ∧
  method req ≠ "OPTIONS" ∧ path req ≠ "/health".

(** The body is one the gate can read: [get_json] returns, and what it
    returns is [None] (absent body), falsy, or a JSON object. *)
Definition object_body (req : Request) : Prop :=
  ∃ d, json_or_empty req = Ret (PDict d).

(** The first non-empty value of a list of optional strings. *)
Fixpoint first_nonempty (l : list (option string)) : option string :=
  match l with
  | [] => None
  | o :: l' => if truthy_str o then o else first_nonempty l'
  end.

(** ** Parameter bags *)

(** A value that is present and not [None]. *)
Definition non_null (o : option pyval) : option pyval :=
  match o with
  | Some PNone => None
  | _ => o
  end.

(** The configuration built from a parameter bag that is a dictionary. *)
Definition mapped_config (p : gmap string pyval) : gmap string pyval :=
  clean_None
    (let gc := match p !! "temperature" with
               | Some v => <["temperature" := v]> ∅ | None => ∅ end in
     let gc := match p !! "top_p" with
               | Some v => <["top_p" := v]> gc | None => gc end in
     let gc := match p !! "top_k" with
               | Some v => <["top_k" := v]> gc | None => gc end in
     match p !! "max_new_tokens" with
     | Some v => <["max_output_tokens" := v]> gc | None => gc end).

(** The double 0.5. *)
Definition one_half : spec_float := S754_finite false 4503599627370496 (-53).

(** ** Requests to [generate] *)

(** The request with another body, given by the outcome of [get_json]. *)
Definition with_json (req : Request) (o : exc pyval) : Request :=
  {| method := method req; path := path req; headers := headers req;
     args := args req; get_json := o |}.

(** The trimmed mode, the trimmed inputs and the parameters of a request,
    as lines 74-78 compute them. *)
Definition request_mode (req : Request) : exc string :=
  data ← json_or_empty req; get_mode data.

Definition request_inputs (req : Request) : exc string :=
  data ← json_or_empty req; get_inputs data.

Definition request_parameters (req : Request) : exc pyval :=
  data ← json_or_empty req; get_parameters data.

(** The request reaches line 74: it is a POST, the gate lets it
    through and the provider key is configured. *)
Definition reaches_body (cfg : Config) (req : Request) : Prop :=
  method req = "POST" ∧
  _check_internal_auth cfg req = Ret None ∧
  truthy_str (GOOGLE_API_KEY cfg) = true.

(** ** Vocabulary of the further properties *)

(** [get_json] returns a value that is truthy and not a JSON object: a
    non-empty array or string, a non-zero number, [true]. *)
Definition unreadable_body (req : Request) : Prop :=
  ∃ v, get_json req = Ret v ∧ truthy v = true ∧ ∀ d, v ≠ PDict d.

(** The channels of a request in the order of their priority. *)
Definition channels_in_order (req : Request) : list (option string) :=
  [bearer_channel req; header_channel req; query_channel req; body_channel req].

(** The keys the parameter mapping looks for. *)
Definition recognised_keys : list string :=
  ["temperature"; "top_p"; "top_k"; "max_new_tokens"].

(** The values on which the parameter mapping cannot work: [None], a
    boolean, a number, a string that contains a recognised key, a list
    that has a recognised key for element. *)
Definition mapping_fails (v : pyval) : Prop :=
  match v with
  | PDict _ => False
  | PStr s => ∃ k, k ∈ recognised_keys ∧ is_substring k s = true
  | PList l => ∃ k, k ∈ recognised_keys ∧ PStr k ∈ l
  | _ => True
  end.

(** The string consists of whitespace only. *)
Fixpoint all_space (s : string) : bool :=
  match s with
  | EmptyString => true
  | String c s' => isspace c && all_space s'
  end.

(** A field that is missing, falsy, or a string of whitespace only. *)
Definition blank (o : option pyval) : Prop :=
  truthy (default PNone o) = false ∨
  ∃ s, o = Some (PStr s) ∧ all_space s = true.

(** A field of the JSON object a response carries. *)
Definition json_field (r : Response) (k : string) : option pyval :=
  match body r with
  | Json (PDict d) => d !! k
  | _ => None
  end.

(** [v["k1"][i]...]: one step into a decoded JSON document. *)
Definition at_key (k : string) (v : pyval) : option pyval :=
  match v with
  | PDict d => d !! k
  | _ => None
  end.

Definition at_index (i : nat) (v : pyval) : option pyval :=
  match v with
  | PList l => l !! i
  | _ => None
  end.

(** A path into a decoded JSON document: keys and indices. *)
Inductive PathStep : Type :=
  | Key (k : string)
  | Index (i : nat).

Fixpoint json_path (steps : list PathStep) (v : pyval) : option pyval :=
  match steps with
  | [] => Some v
  | Key k :: steps' =>
      match at_key k v with
      | Some v' => json_path steps' v'
      | None => None
      end
  | Index i :: steps' =>
      match at_index i v with
      | Some v' => json_path steps' v'
      | None => None
      end
  end.

(** The JSON document of a response, followed along a path. *)
Definition response_path (r : Response) (steps : list PathStep) : option pyval :=
  match body r with
  | Json v => json_path steps v
  | Text _ => None
  end.

(** A field of the body that the handler can use: missing, falsy, or of
    the expected type. *)
Definition string_or_falsy (o : option pyval) : Prop :=
  truthy (default PNone o) = false ∨ ∃ s, o = Some (PStr s).

Definition dict_or_falsy (o : option pyval) : Prop :=
  truthy (default PNone o) = false ∨ ∃ p, o = Some (PDict p).

(** A request for which [get_json] returns, and returns [None], a falsy
    value or an object, with [mode] and [inputs] strings and
    [parameters] an object, where present. *)
Definition well_typed (req : Request) : Prop :=
  ∃ d, json_or_empty req = Ret (PDict d) ∧
       string_or_falsy (d !! "mode") ∧ string_or_falsy (d !! "inputs") ∧
       dict_or_falsy (d !! "parameters").

(** The status codes [generate] answers with. *)
Definition generate_statuses : list Z := [200; 204; 400; 401; 500; 502].

(** ** Sample configurations, providers and requests *)

Definition cfg_secret : Config :=
  {| GOOGLE_API_KEY := Some "provider-key"; INTERNAL_API_KEY := Some "s3cret" |}.

Definition cfg_no_provider : Config :=
  {| GOOGLE_API_KEY := None; INTERNAL_API_KEY := Some "s3cret" |}.

(** A provider that answers with the inputs it was given. *)
Definition echo_upstream (model_name : pyval) (inputs : string)
    (generation_config : gmap string pyval) : UpstreamResult :=
  UReturn (Some (PStr inputs)) None.

(** A provider whose responses have a payload and no [text] attribute. *)
Definition silent_upstream (model_name : pyval) (inputs : string)
    (generation_config : gmap string pyval) : UpstreamResult :=
  UReturn None (Some (PDict {[ "candidates" := PList [] ]})).

(** A provider whose call raises. *)
Definition failing_upstream (model_name : pyval) (inputs : string)
    (generation_config : gmap string pyval) : UpstreamResult :=
  URaise "quota exceeded".

(** No internal secret: the gate is disabled. *)
Definition cfg_open : Config :=
  {| GOOGLE_API_KEY := Some "provider-key"; INTERNAL_API_KEY := None |}.

(** A POST whose body makes the decoder raise [RecursionError]: a long
    run of opening brackets, malformed and nested too deeply. *)
Definition req_too_deep : Request :=
  {| method := "POST"; path := "/api/generate"; headers := ∅; args := ∅;
     get_json := Raise RecursionError |}.

(** A POST to /api/generate with the secret in the [x-api-key] header. *)
Definition post (v : pyval) : Request :=
  {| method := "POST"; path := "/api/generate";
     headers := {[ "x-api-key" := "s3cret" ]}; args := ∅; get_json := Ret v |}.

Definition array_body : pyval := PList [PInt 1].

(** No credential at all, the body a JSON array. *)
Definition req_array_anonymous : Request :=
  {| method := "POST"; path := "/api/generate"; headers := ∅; args := ∅;
     get_json := Ret array_body |}.

(** The correct secret in the [x-api-key] header only, the body a JSON
    array. *)
Definition req_array_header : Request := post array_body.

(** A wrong bearer token and the correct secret in the [x-api-key]
    header, the body a JSON array. *)
Definition req_array_two_channels : Request :=
  {| method := "POST"; path := "/api/generate";
     headers := {[ "Authorization" := "Bearer wrong"; "x-api-key" := "s3cret" ]};
     args := ∅; get_json := Ret array_body |}.

(** [{"mode": " story ", "inputs": "   "}] *)
Definition req_story_blank : Request :=
  post (PDict (list_to_map [("mode", PStr " story "); ("inputs", PStr "   ")])).

(** [{"mode": "story", "inputs": " hello "}] *)
Definition req_story_hello : Request :=
  post (PDict (list_to_map [("mode", PStr "story"); ("inputs", PStr " hello ")])).

(** [{"mode": "prompt"}] *)
Definition req_prompt_only : Request :=
  post (PDict {[ "mode" := PStr "prompt" ]}).

(** No JSON body. *)
Definition req_no_body : Request := post PNone.

(** [{"mode": "random", "parameters": 5}] *)
Definition req_random_bad_parameters : Request :=
  post (PDict (list_to_map [("mode", PStr "random"); ("parameters", PInt 5)])).

(** * Properties *)

(** ** Strings and options *)

Lemma truthy_str_Some (s : string) : s ≠ "" → truthy_str (Some s) = true.
Proof. destruct s; [congruence | reflexivity]. Qed.

Lemma str_or_truthy_l (a b : option string) :
  truthy_str a = true → str_or a b = a.
Proof. unfold str_or. intros ->. reflexivity. Qed.

Lemma str_or_falsy_l (a b : option string) :
  truthy_str a = false → str_or a b = b.
Proof. unfold str_or. intros ->. reflexivity. Qed.

Lemma bearer_of_token (s : string) : bearer_of ("Bearer " +:+ s) = Some s.
Proof. reflexivity. Qed.

(** ** The channels of a request *)

Lemma body_key_of_dict (d : gmap string pyval) :
  body_key_of (PDict d) = Ret (body_field d).
Proof.
  unfold body_key_of, body_field. simpl.
  destruct (d !! "api_key") as [[]|]; reflexivity.
Qed.

Lemma body_key_of_not_dict (v : pyval) :
  (∀ d, v ≠ PDict d) → body_key_of v = Raise AttributeError.
Proof. destruct v; intros H; try reflexivity. destruct (H d). reflexivity. Qed.

Lemma py_or_dict_body_field (v : pyval) (d : gmap string pyval) :
  py_or v (PDict ∅) = PDict d →
  body_field d = match v with PDict d' => body_field d' | _ => None end.
Proof.
  unfold py_or. destruct (truthy v) eqn:Ht.
  - intros ->. reflexivity.
  - intros [= <-]. destruct v; try reflexivity.
    simpl in Ht. apply negb_false_iff, Nat.eqb_eq, map_size_empty_inv in Ht.
    subst d. reflexivity.
Qed.

Lemma json_or_empty_Ret (req : Request) (w : pyval) :
  json_or_empty req = Ret w ↔
  ∃ v, get_json req = Ret v ∧ py_or v (PDict ∅) = w.
Proof.
  unfold json_or_empty. destruct (get_json req) as [v|e]; simpl; split.
  - intros [= <-]. eauto.
  - intros (v' & [= <-] & <-). reflexivity.
  - discriminate.
  - intros (v' & H & _). discriminate H.
Qed.

Lemma json_or_empty_Raise (req : Request) (e : PyExn) :
  json_or_empty req = Raise e ↔ get_json req = Raise e.
Proof.
  unfold json_or_empty. destruct (get_json req) as [v|e']; simpl; split;
    try discriminate; intros [= <-]; reflexivity.
Qed.

Lemma read_channels_object (req : Request) :
  object_body req →
  read_channels req =
    Ret {| bearer := bearer_channel req; x_api_key := header_channel req;
           query_key := query_channel req; body_key := body_channel req |}.
Proof.
  intros [d Hd]. unfold read_channels. rewrite Hd. cbn -[body_key_of].
  rewrite body_key_of_dict. cbn.
  apply json_or_empty_Ret in Hd as (v & Hv & Hd).
  unfold body_channel. rewrite Hv, (py_or_dict_body_field _ _ Hd).
  reflexivity.
Qed.

Lemma read_channels_not_object (req : Request) (v : pyval) :
  get_json req = Ret v → ¬ object_body req →
  read_channels req = Raise AttributeError.
Proof.
  intros Hv H. unfold read_channels, json_or_empty. rewrite Hv.
  cbn -[body_key_of]. rewrite body_key_of_not_dict; [reflexivity |].
  intros d Hd. apply H. exists d. apply json_or_empty_Ret. eauto.
Qed.

Lemma read_channels_raise (req : Request) (e : PyExn) :
  get_json req = Raise e → read_channels req = Raise e.
Proof.
  intros He. unfold read_channels, json_or_empty. rewrite He. reflexivity.
Qed.

Lemma gate_active_unfold (cfg : Config) (req : Request) :
  gate_active cfg req →
  _check_internal_auth cfg req =
    ch ← read_channels req;
    if negb (truthy_str (provided_of ch))
       || negb (bool_decide (provided_of ch = INTERNAL_API_KEY cfg))
    then mret (Some auth_error) else mret None.
Proof.
  intros (Hs & Hm & Hp). unfold _check_internal_auth. rewrite Hs. simpl.
  apply String.eqb_neq in Hm, Hp. rewrite Hm, Hp. reflexivity.
Qed.

(** When [get_json] returns, the gate crashes exactly on the bodies that
    are truthy and not an object: every other active request gets an
    answer. *)
Lemma gate_raises_iff (cfg : Config) (req : Request) (v : pyval) :
  gate_active cfg req → get_json req = Ret v →
  (_check_internal_auth cfg req = Raise AttributeError ↔ ¬ object_body req).
Proof.
  intros Ha Hv. rewrite (gate_active_unfold _ _ Ha). split.
  - intros H Hobj. rewrite (read_channels_object _ Hobj) in H. simpl in H.
    destruct (_ || _); discriminate.
  - intros H. rewrite (read_channels_not_object _ _ Hv H). reflexivity.
Qed.

(** An exception of [get_json] leaves an active gate as it is. *)
Lemma gate_propagates (cfg : Config) (req : Request) (e : PyExn) :
  gate_active cfg req → get_json req = Raise e →
  _check_internal_auth cfg req = Raise e.
Proof.
  intros Ha He. rewrite (gate_active_unfold _ _ Ha), (read_channels_raise _ _ He).
  reflexivity.
Qed.

(** With a readable body and no credential in any channel, the gate
    answers 401. *)
Lemma gate_no_credential (cfg : Config) (req : Request) :
  gate_active cfg req → object_body req →
  truthy_str (bearer_channel req) = false →
  truthy_str (header_channel req) = false →
  truthy_str (query_channel req) = false →
  truthy_str (body_channel req) = false →
  _check_internal_auth cfg req = Ret (Some auth_error).
Proof.
  intros Ha Hobj Hb Hx Hq Hk.
  rewrite (gate_active_unfold _ _ Ha), (read_channels_object _ Hobj). simpl.
  unfold provided_of. simpl.
  rewrite (str_or_falsy_l _ _ Hb), (str_or_falsy_l _ _ Hx), (str_or_falsy_l _ _ Hq).
  rewrite Hk. reflexivity.
Qed.

(** With a readable body, the gate passes exactly when the candidate is
    non-empty and equal to the configured secret. *)
Lemma gate_passes_iff (cfg : Config) (req : Request) (ch : Channels) :
  gate_active cfg req → read_channels req = Ret ch →
  (_check_internal_auth cfg req = Ret None ↔
   truthy_str (provided_of ch) = true ∧ provided_of ch = INTERNAL_API_KEY cfg).
Proof.
  intros Ha Hch. rewrite (gate_active_unfold _ _ Ha), Hch. simpl.
  destruct (truthy_str (provided_of ch)); simpl.
  - case_bool_decide; simpl; intuition discriminate.
  - intuition discriminate.
Qed.

(** With a readable body, the correct secret in one channel and nothing
    in the other three, the gate passes. *)
Lemma gate_single_channel (cfg : Config) (req : Request) (secret : string) :
  gate_active cfg req → object_body req →
  INTERNAL_API_KEY cfg = Some secret →
  [bearer_channel req; header_channel req; query_channel req; body_channel req]
    ∈ [[Some secret; None; None; None]; [None; Some secret; None; None];
       [None; None; Some secret; None]; [None; None; None; Some secret]] →
  _check_internal_auth cfg req = Ret None.
Proof.
  intros Ha Hobj Hs Hin.
  assert (Ht : truthy_str (Some secret) = true).
  { destruct Ha as [Ha _]. rewrite Hs in Ha. exact Ha. }
  apply (gate_passes_iff _ _ _ Ha (read_channels_object _ Hobj)).
  unfold provided_of. simpl. rewrite Hs.
  destruct secret as [|c secret]; [discriminate Ht |].
  repeat (apply elem_of_cons in Hin as [Hin | Hin];
          [injection Hin as -> -> -> -> | ]);
    [ | | | | apply elem_of_nil in Hin; contradiction ];
    split; reflexivity.
Qed.

(** The candidate of the gate is the first non-empty channel, in the
    order bearer, [x-api-key], query, body. *)
Lemma provided_of_first_nonempty (ch : Channels) :
  truthy_str (provided_of ch) =
    truthy_str (first_nonempty [bearer ch; x_api_key ch; query_key ch; body_key ch]) ∧
  (truthy_str (provided_of ch) = true →
   provided_of ch =
     first_nonempty [bearer ch; x_api_key ch; query_key ch; body_key ch]).
Proof.
  unfold provided_of, str_or. simpl.
  destruct (truthy_str (bearer ch)) eqn:Hb; simpl; rewrite ?Hb; auto.
  destruct (truthy_str (x_api_key ch)) eqn:Hx; simpl; rewrite ?Hx; auto.
  destruct (truthy_str (query_key ch)) eqn:Hq; simpl; rewrite ?Hq; auto.
  destruct (truthy_str (body_key ch)) eqn:Hk; simpl; auto.
  split; [reflexivity | discriminate].
Qed.

(** With a readable body, a non-empty bearer token that is not the secret
    is rejected, whatever the other channels carry. *)
Lemma gate_wrong_bearer (cfg : Config) (req : Request) (token : string) :
  gate_active cfg req → object_body req →
  bearer_channel req = Some token → token ≠ "" →
  INTERNAL_API_KEY cfg ≠ Some token →
  _check_internal_auth cfg req = Ret (Some auth_error).
Proof.
  intros Ha Hobj Hb Hne Hs.
  rewrite (gate_active_unfold _ _ Ha), (read_channels_object _ Hobj). simpl.
  unfold provided_of. simpl. rewrite Hb.
  rewrite !(str_or_truthy_l (Some token)) by (apply truthy_str_Some, Hne).
  rewrite truthy_str_Some by exact Hne. simpl.
  case_bool_decide; [congruence | reflexivity].
Qed.

(** ** Requests whose JSON body is an array *)

Lemma gate_active_examples :
  gate_active cfg_secret req_array_anonymous ∧
  gate_active cfg_secret req_array_header ∧
  gate_active cfg_secret req_array_two_channels.
Proof. repeat split; discriminate. Qed.

(** C1: a request with no credential in any of the four channels, the
    secret configured, a non-OPTIONS method and a path other than
    /health, should be answered 401. On a body that is a non-empty JSON
    array the gate raises [AttributeError] at [body_json.get] instead:
    it returns no 401 response. *)
Theorem gate_anonymous_array_body_raises :
  gate_active cfg_secret req_array_anonymous ∧
  bearer_channel req_array_anonymous = None ∧
  header_channel req_array_anonymous = None ∧
  query_channel req_array_anonymous = None ∧
  body_channel req_array_anonymous = None ∧
  _check_internal_auth cfg_secret req_array_anonymous = Raise AttributeError.
Proof.
  split; [apply gate_active_examples |].
  repeat split; vm_compute; reflexivity.
Qed.

(** C2: a request carrying the configured secret in exactly one channel,
    the others absent, should pass. With the secret in the [x-api-key]
    header and a body that is a non-empty JSON array (so no [api_key]
    body field), the gate raises [AttributeError] instead of passing. *)
Theorem gate_header_secret_array_body_raises :
  gate_active cfg_secret req_array_header ∧
  header_channel req_array_header = INTERNAL_API_KEY cfg_secret ∧
  bearer_channel req_array_header = None ∧
  query_channel req_array_header = None ∧
  body_channel req_array_header = None ∧
  _check_internal_auth cfg_secret req_array_header = Raise AttributeError.
Proof.
  split; [apply gate_active_examples |].
  repeat split; vm_compute; reflexivity.
Qed.

(** C3: with a non-empty bearer token that differs from the secret and
    the secret in a lower-priority channel, the gate should answer 401.
    When the body is a non-empty JSON array, no candidate is computed:
    the gate raises [AttributeError] and returns no 401 response. *)
Theorem gate_wrong_bearer_array_body_raises :
  gate_active cfg_secret req_array_two_channels ∧
  bearer_channel req_array_two_channels = Some "wrong" ∧
  header_channel req_array_two_channels = INTERNAL_API_KEY cfg_secret ∧
  read_channels req_array_two_channels = Raise AttributeError ∧
  _check_internal_auth cfg_secret req_array_two_channels = Raise AttributeError.
Proof.
  split; [apply gate_active_examples |].
  repeat split; vm_compute; reflexivity.
Qed.

(** ** The parameter mapping *)

Lemma copy_key_dict (p gc : gmap string pyval) (src dst : string) :
  copy_key (PDict p) src dst gc =
    Ret (match p !! src with Some v => <[dst := v]> gc | None => gc end).
Proof.
  unfold copy_key, py_contains, py_getitem. cbn.
  destruct (p !! src) as [v|] eqn:Hp.
  - rewrite bool_decide_eq_true_2 by eauto. reflexivity.
  - rewrite bool_decide_eq_false_2 by (intros [? ?]; discriminate). reflexivity.
Qed.

Lemma clean_None_lookup (gc : gmap string pyval) (k : string) :
  clean_None gc !! k = non_null (gc !! k).
Proof.
  unfold clean_None. rewrite map_lookup_filter.
  destruct (gc !! k) as [v|]; [| reflexivity]. simpl.
  destruct v; reflexivity.
Qed.

Lemma map_parameters_dict (p : gmap string pyval) :
  map_parameters (PDict p) = Ret (mapped_config p).
Proof.
  unfold map_parameters, mapped_config.
  rewrite copy_key_dict. simpl. rewrite copy_key_dict. simpl.
  rewrite copy_key_dict. simpl. rewrite copy_key_dict. reflexivity.
Qed.

Lemma mapped_config_lookup (p : gmap string pyval) (k : string) :
  mapped_config p !! k =
    if decide (k = "temperature") then non_null (p !! "temperature")
    else if decide (k = "top_p") then non_null (p !! "top_p")
    else if decide (k = "top_k") then non_null (p !! "top_k")
    else if decide (k = "max_output_tokens") then non_null (p !! "max_new_tokens")
    else None.
Proof.
  unfold mapped_config. rewrite clean_None_lookup.
  destruct (p !! "temperature"), (p !! "top_p"), (p !! "top_k"),
    (p !! "max_new_tokens"); simpl;
    repeat case_decide; simplify_map_eq; reflexivity.
Qed.

(** C4: on every parameter bag the mapping succeeds, and its output holds
    exactly the recognised keys that the bag binds to a value other than
    [None], each with the value of the bag, [max_new_tokens] under the
    name [max_output_tokens]; keys bound to [None] are dropped, other keys
    are ignored, no output value is [None]; the two examples of the
    specification evaluate as stated. *)
Theorem map_parameters_exact (p : gmap string pyval) :
  ∃ gc, map_parameters (PDict p) = Ret gc ∧
    gc !! "temperature" = non_null (p !! "temperature") ∧
    gc !! "top_p" = non_null (p !! "top_p") ∧
    gc !! "top_k" = non_null (p !! "top_k") ∧
    gc !! "max_output_tokens" = non_null (p !! "max_new_tokens") ∧
    (∀ k, k ∉ ["temperature"; "top_p"; "top_k"; "max_output_tokens"] →
          gc !! k = None) ∧
    (∀ k, gc !! k ≠ Some PNone) ∧
    map_parameters
      (PDict (list_to_map [("temperature", PFloat one_half);
                           ("max_new_tokens", PInt 100);
                           ("unknown_key", PStr "x")])) =
      Ret (list_to_map [("temperature", PFloat one_half);
                        ("max_output_tokens", PInt 100)]) ∧
    map_parameters (PDict {[ "top_p" := PNone ]}) = Ret ∅.
Proof.
  exists (mapped_config p). split; [apply map_parameters_dict |].
  do 4 (split; [rewrite mapped_config_lookup; reflexivity |]).
  split; [| split; [| split; vm_compute; reflexivity]].
  - intros k Hk. rewrite mapped_config_lookup.
    repeat case_decide; try reflexivity; subst k; exfalso; apply Hk;
      repeat constructor.
  - intros k. rewrite mapped_config_lookup.
    assert (Hn : ∀ o, non_null o ≠ Some PNone).
    { intros [[]|]; simpl; discriminate. }
    repeat case_decide; try apply Hn. discriminate.
Qed.

(** ** The [generate] handler *)

Lemma get_mode_dict (data : pyval) (mode : string) :
  get_mode data = Ret mode → ∃ d, data = PDict d.
Proof. destruct data; try discriminate. eauto. Qed.

Lemma truthy_insert (d : gmap string pyval) (k : string) (v : pyval) :
  truthy (PDict (<[k := v]> d)) = true.
Proof.
  simpl. apply negb_true_iff, Nat.eqb_neq. intros H.
  apply map_size_empty_inv in H. exact (insert_non_empty _ _ _ H).
Qed.

Section GenerateProperties.

Variable cfg : Config.
Variable upstream : pyval -> string -> gmap string pyval -> UpstreamResult.

Lemma generate_reaches_body (req : Request) :
  reaches_body cfg req →
  generate cfg upstream req = generate_body upstream req.
Proof.
  intros (Hm & Hg & Hk). unfold generate. rewrite Hm, Hg, Hk. reflexivity.
Qed.

(** The handler on a request whose [mode] and [inputs] can be trimmed. *)
Lemma generate_body_trimmed (req : Request) (d : gmap string pyval)
    (mode inputs : string) :
  json_or_empty req = Ret (PDict d) →
  get_mode (PDict d) = Ret mode → get_inputs (PDict d) = Ret inputs →
  generate_body upstream req =
    if negb (String.eqb mode "random") && String.eqb inputs ""
    then no_call (Ret missing_inputs_error)
    else
      match map_parameters (py_or (default PNone (d !! "parameters")) (PDict ∅)) with
      | Raise e => no_call (Raise e)
      | Ret gc =>
          call_upstream upstream
            (py_or (default PNone (d !! "model")) (PStr default_model))
            (if String.eqb mode "random" && String.eqb inputs ""
             then default_inputs else inputs)
            gc
      end.
Proof.
  intros Hd Hm Hi. unfold generate_body. rewrite Hd.
  unfold generate_data. rewrite Hm, Hi. reflexivity.
Qed.

Lemma request_mode_dict (req : Request) (mode : string) :
  request_mode req = Ret mode →
  ∃ d, json_or_empty req = Ret (PDict d) ∧ get_mode (PDict d) = Ret mode.
Proof.
  unfold request_mode. destruct (json_or_empty req) as [data|]; simpl;
    [| discriminate].
  intros Hm. destruct (get_mode_dict _ _ Hm) as [d ->]. eauto.
Qed.

(** The handler invokes the provider at most once, and when it does its
    outcome is that of the [try] block. *)
Lemma generate_log (req : Request) :
  snd (generate cfg upstream req) = [] ∨
  ∃ c, generate cfg upstream req =
         call_upstream upstream (call_model c) (call_inputs c) (call_config c)
       ∧ snd (generate cfg upstream req) = [c].
Proof.
  unfold generate.
  destruct (String.eqb (method req) "OPTIONS"); [left; reflexivity |].
  destruct (_check_internal_auth cfg req) as [[r|]|e]; try (left; reflexivity).
  destruct (negb _); [left; reflexivity |].
  unfold generate_body.
  destruct (json_or_empty req) as [data|]; [| left; reflexivity].
  unfold generate_data.
  destruct (get_mode _); [| left; reflexivity].
  destruct (get_inputs _); [| left; reflexivity].
  destruct (get_model_name _) as [model_name|]; [| left; reflexivity].
  destruct (get_parameters _) as [parameters|]; [| left; reflexivity].
  destruct (_ && _); [left; reflexivity |].
  destruct (map_parameters parameters) as [gc|]; [| left; reflexivity].
  right. eexists {| call_model := model_name; call_config := gc |}.
  split; reflexivity.
Qed.

(** Lines 80-81: a trimmed mode other than "random" with empty trimmed
    inputs ends the handler with the 400 error, before any call. *)
Lemma generate_body_missing_inputs (req : Request) (mode : string) :
  reaches_body cfg req →
  request_mode req = Ret mode → mode ≠ "random" →
  request_inputs req = Ret "" →
  generate cfg upstream req = (Ret missing_inputs_error, []).
Proof.
  intros Hr Hm Hne Hi.
  destruct (request_mode_dict _ _ Hm) as (d & Hd & Hm').
  unfold request_inputs in Hi. rewrite Hd in Hi. simpl in Hi.
  rewrite (generate_reaches_body _ Hr).
  rewrite (generate_body_trimmed _ _ _ _ Hd Hm' Hi).
  apply String.eqb_neq in Hne. rewrite Hne. reflexivity.
Qed.

(** C5: a POST that passes the gate, with the provider key configured,
    a trimmed mode other than "random" and an empty trimmed inputs
    string, is answered with the 400 "missing inputs" error, and the
    provider is not invoked. *)
Theorem generate_missing_inputs (req : Request) (mode : string) :
  reaches_body cfg req →
  request_mode req = Ret mode → mode ≠ "random" →
  request_inputs req = Ret "" →
  generate cfg upstream req = (Ret missing_inputs_error, []) ∧
  status missing_inputs_error = 400 ∧
  body missing_inputs_error =
    Json (PDict {[ "error" := PStr "Missing 'inputs' parameter" ]}).
Proof.
  intros Hr Hm Hne Hi. split; [| split; reflexivity].
  exact (generate_body_missing_inputs req mode Hr Hm Hne Hi).
Qed.

(** When the parameters can be mapped, a request in mode "random" with
    empty inputs invokes the provider with the default text. *)
Lemma generate_random_default (req : Request) (d gc : gmap string pyval) :
  reaches_body cfg req → json_or_empty req = Ret (PDict d) →
  get_mode (PDict d) = Ret "random" → get_inputs (PDict d) = Ret "" →
  map_parameters (py_or (default PNone (d !! "parameters")) (PDict ∅)) = Ret gc →
  generate cfg upstream req =
    call_upstream upstream
      (py_or (default PNone (d !! "model")) (PStr default_model))
      default_inputs gc.
Proof.
  intros Hr Hd Hm Hi Hp.
  rewrite (generate_reaches_body _ Hr), (generate_body_trimmed _ _ _ _ Hd Hm Hi), Hp.
  reflexivity.
Qed.

(** C7: a POST that passes the gate while the provider key is not
    configured is answered with the 500 "not configured" error,
    whatever its body, and the provider is not invoked. *)
Theorem generate_not_configured (req : Request) :
  method req = "POST" → _check_internal_auth cfg req = Ret None →
  truthy_str (GOOGLE_API_KEY cfg) = false →
  generate cfg upstream req = (Ret not_configured_error, []) ∧
  status not_configured_error = 500 ∧
  ∀ o, _check_internal_auth cfg (with_json req o) = Ret None →
       generate cfg upstream (with_json req o) = (Ret not_configured_error, []).
Proof.
  intros Hm Hg Hk. unfold generate. simpl. rewrite Hm, Hg, Hk.
  split; [reflexivity | split; [reflexivity |]].
  intros o ->. reflexivity.
Qed.

(** A POST for which [get_json] returns [None] (no body, or a body whose
    decoding fails with a [ValueError]) is handled as the same request
    with the empty object for body; when it passes the gate and the
    provider key is configured, the answer is the 400 "missing inputs"
    error. *)
Lemma generate_silenced_body (req : Request) :
  get_json req = Ret PNone → reaches_body cfg req →
  json_or_empty req = Ret (PDict ∅) ∧
  generate cfg upstream req =
    generate cfg upstream (with_json req (Ret (PDict ∅))) ∧
  request_mode req = Ret "prompt" ∧
  generate cfg upstream req = (Ret missing_inputs_error, []).
Proof.
  intros Hj (Hm & Hg & Hk).
  assert (Hd : json_or_empty req = Ret (PDict ∅))
    by (unfold json_or_empty; rewrite Hj; reflexivity).
  assert (Hgen : generate cfg upstream req = (Ret missing_inputs_error, [])).
  { unfold generate, generate_body. rewrite Hm, Hg, Hk, Hd. reflexivity. }
  repeat split; try assumption.
  - rewrite Hgen. unfold generate. simpl. rewrite Hm.
    assert (Hg' : _check_internal_auth cfg (with_json req (Ret (PDict ∅))) = Ret None).
    { rewrite <- Hg. unfold _check_internal_auth, read_channels, json_or_empty.
      simpl. rewrite Hj. reflexivity. }
    rewrite Hg', Hk. reflexivity.
  - unfold request_mode. rewrite Hd. reflexivity.
Qed.

(** C9: when the handler has invoked the provider and the call returned
    a response whose [text] attribute is absent, [None] or the empty
    string, the handler answers 502 with the error "Empty response" and,
    as [raw], the payload of the response when it has one, [None]
    otherwise. *)
Theorem generate_empty_response (req : Request) (c : UpstreamCall)
    (text to_dict : option pyval) :
  snd (generate cfg upstream req) = [c] →
  upstream (call_model c) (call_inputs c) (call_config c) = UReturn text to_dict →
  text = None ∨ text = Some PNone ∨ text = Some (PStr "") →
  fst (generate cfg upstream req) = Ret (empty_response_error to_dict) ∧
  status (empty_response_error to_dict) = 502 ∧
  body (empty_response_error to_dict) =
    Json (PDict (<["error" := PStr "Empty response"]>
                   {[ "raw" := default PNone to_dict ]})).
Proof.
  intros Hlog Hup Htext. split; [| split; reflexivity].
  destruct (generate_log req) as [Hnil | (c' & Hgen & Hc')].
  - rewrite Hnil in Hlog. discriminate.
  - rewrite Hc' in Hlog. injection Hlog as ->.
    rewrite Hgen. unfold call_upstream. simpl. rewrite Hup.
    destruct Htext as [-> | [-> | ->]]; reflexivity.
Qed.

Lemma gate_with_json (req : Request) (o : exc pyval) :
  (json_or_empty req ≫= body_key_of) =
    (json_or_empty (with_json req o) ≫= body_key_of) →
  _check_internal_auth cfg req = _check_internal_auth cfg (with_json req o).
Proof.
  intros H. unfold _check_internal_auth.
  assert (Hb : ∀ r, read_channels r =
            bk ← (json_or_empty r ≫= body_key_of);
            mret {| bearer := bearer_channel r; x_api_key := header_channel r;
                    query_key := query_channel r; body_key := bk |}).
  { intros r. unfold read_channels. destruct (json_or_empty r); reflexivity. }
  rewrite !Hb, H. reflexivity.
Qed.

(** C10: a request whose trimmed mode is any string other than "random"
    is handled exactly as the same request with mode "prompt"; when it
    reaches the body of the handler, empty trimmed inputs give the 400
    "missing inputs" error, and every invocation of the provider gets
    the trimmed inputs of the request, never the default text put in
    their place. *)
Theorem generate_mode_not_random (req : Request) (d : gmap string pyval)
    (mode : string) :
  json_or_empty req = Ret (PDict d) →
  get_mode (PDict d) = Ret mode → mode ≠ "random" →
  generate cfg upstream req =
    generate cfg upstream
      (with_json req (Ret (PDict (<["mode" := PStr "prompt"]> d)))) ∧
  (reaches_body cfg req → get_inputs (PDict d) = Ret "" →
   generate cfg upstream req = (Ret missing_inputs_error, [])) ∧
  (∀ inputs c, get_inputs (PDict d) = Ret inputs →
     c ∈ snd (generate cfg upstream req) → call_inputs c = inputs).
Proof.
  intros Hd Hm Hne.
  pose proof Hne as Hneb. apply String.eqb_neq in Hneb.
  set (d' := <["mode" := PStr "prompt"]> d).
  assert (Hd' : json_or_empty (with_json req (Ret (PDict d'))) = Ret (PDict d')).
  { unfold json_or_empty, py_or. simpl get_json. cbn -[truthy]. unfold d'.
    rewrite truthy_insert. reflexivity. }
  split; [| split].
  - unfold generate. simpl method.
    destruct (String.eqb (method req) "OPTIONS"); [reflexivity |].
    rewrite <- (gate_with_json req (Ret (PDict d'))).
    2:{ rewrite Hd, Hd'. cbn -[body_key_of]. rewrite !body_key_of_dict.
        unfold body_field, d'.
        rewrite lookup_insert_ne by discriminate. reflexivity. }
    destruct (_check_internal_auth cfg req) as [[r|]|e]; try reflexivity.
    destruct (negb _); [reflexivity |].
    unfold generate_body. rewrite Hd, Hd'. unfold generate_data. rewrite Hm.
    unfold get_mode, get_inputs, get_model_name, get_parameters, py_get, d'.
    rewrite lookup_insert_eq, !lookup_insert_ne by discriminate.
    cbn. destruct (py_strip _) as [inputs|]; [| reflexivity].
    rewrite Hneb. reflexivity.
  - intros Hr Hi.
    apply (generate_body_missing_inputs req mode Hr); [| exact Hne |].
    + unfold request_mode. rewrite Hd. exact Hm.
    + unfold request_inputs. rewrite Hd. exact Hi.
  - intros inputs c Hi Hc. unfold generate in Hc.
    destruct (String.eqb (method req) "OPTIONS"); [inversion Hc |].
    destruct (_check_internal_auth cfg req) as [[r|]|e]; try (inversion Hc; fail).
    destruct (negb _); [inversion Hc |].
    rewrite (generate_body_trimmed _ _ _ _ Hd Hm Hi), Hneb in Hc.
    simpl in Hc. destruct (String.eqb inputs ""); [inversion Hc |].
    destruct (map_parameters _); [| inversion Hc].
    apply list_elem_of_singleton in Hc. subst c. reflexivity.
Qed.

End GenerateProperties.

(** ** The handler on sample requests *)

(** C6: a POST that passes the gate, with the provider key configured,
    trimmed mode "random" and empty trimmed inputs, should invoke the
    provider with the default text. When [parameters] is the number 5,
    the test ['temperature' in parameters] of line 88 raises [TypeError]
    outside the [try] block: the handler ends with the exception and the
    provider is not invoked, whatever the provider is. *)
Theorem generate_random_bad_parameters_raises
    (upstream : pyval -> string -> gmap string pyval -> UpstreamResult) :
  reaches_body cfg_secret req_random_bad_parameters ∧
  request_mode req_random_bad_parameters = Ret "random" ∧
  request_inputs req_random_bad_parameters = Ret "" ∧
  request_parameters req_random_bad_parameters = Ret (PInt 5) ∧
  map_parameters (PInt 5) = Raise TypeError ∧
  generate cfg_secret upstream req_random_bad_parameters = (Raise TypeError, []).
Proof. repeat split; vm_compute; reflexivity. Qed.

(** The same request without [parameters] does invoke the provider with
    the default text. *)
Lemma generate_random_sample :
  generate cfg_secret echo_upstream (post (PDict {[ "mode" := PStr "random" ]})) =
    (Ret (success_response (PStr default_inputs)),
     [{| call_model := PStr default_model; call_inputs := default_inputs;
         call_config := ∅ |}]).
Proof. vm_compute. reflexivity. Qed.

Lemma generate_missing_inputs_witness :
  reaches_body cfg_secret req_story_blank ∧
  request_mode req_story_blank = Ret "story" ∧
  "story" ≠ "random" ∧
  request_inputs req_story_blank = Ret "" ∧
  generate cfg_secret echo_upstream req_story_blank =
    (Ret missing_inputs_error, []).
Proof.
  assert (Hr : reaches_body cfg_secret req_story_blank)
    by (repeat split; vm_compute; reflexivity).
  assert (Hm : request_mode req_story_blank = Ret "story")
    by (vm_compute; reflexivity).
  assert (Hne : "story" ≠ "random") by discriminate.
  assert (Hi : request_inputs req_story_blank = Ret "")
    by (vm_compute; reflexivity).
  repeat (split; [assumption |]).
  exact (proj1 (generate_missing_inputs cfg_secret echo_upstream
                  req_story_blank "story" Hr Hm Hne Hi)).
Defined.

Lemma generate_not_configured_witness :
  method req_prompt_only = "POST" ∧
  _check_internal_auth cfg_no_provider req_prompt_only = Ret None ∧
  truthy_str (GOOGLE_API_KEY cfg_no_provider) = false ∧
  generate cfg_no_provider echo_upstream req_prompt_only =
    (Ret not_configured_error, []).
Proof.
  assert (Hm : method req_prompt_only = "POST") by reflexivity.
  assert (Hg : _check_internal_auth cfg_no_provider req_prompt_only = Ret None)
    by (vm_compute; reflexivity).
  assert (Hk : truthy_str (GOOGLE_API_KEY cfg_no_provider) = false)
    by reflexivity.
  repeat (split; [assumption |]).
  exact (proj1 (generate_not_configured cfg_no_provider echo_upstream
                  req_prompt_only Hm Hg Hk)).
Defined.

(** C8: a POST with an absent or malformed JSON body should be handled as
    one with the empty object for body and, once past the gate with the
    provider key configured, be answered with the 400 "missing inputs"
    error. On a body that is malformed and nested too deeply, the
    decoder raises [RecursionError], which [silent=True] does not
    silence: with the gate disabled, the exception leaves the handler at
    line 74, and no 400 is returned, whatever the provider is. *)
Theorem generate_too_deep_body_raises
    (upstream : pyval -> string -> gmap string pyval -> UpstreamResult) :
  reaches_body cfg_open req_too_deep ∧
  get_json req_too_deep = Raise RecursionError ∧
  json_or_empty req_too_deep = Raise RecursionError ∧
  generate cfg_open upstream req_too_deep = (Raise RecursionError, []).
Proof. repeat split. Qed.

(** The same request with no body at all, or with a body whose decoding
    fails with a [ValueError], gets the 400. *)
Lemma generate_silenced_body_sample :
  generate cfg_open echo_upstream (with_json req_too_deep (Ret PNone)) =
    (Ret missing_inputs_error, []).
Proof.
  apply (generate_silenced_body cfg_open echo_upstream
           (with_json req_too_deep (Ret PNone)));
    [reflexivity | repeat split].
Qed.

Lemma generate_empty_response_witness :
  snd (generate cfg_secret silent_upstream req_story_hello) =
    [{| call_model := PStr default_model; call_inputs := "hello";
        call_config := ∅ |}] ∧
  silent_upstream (PStr default_model) "hello" ∅ =
    UReturn None (Some (PDict {[ "candidates" := PList [] ]})) ∧
  fst (generate cfg_secret silent_upstream req_story_hello) =
    Ret (empty_response_error (Some (PDict {[ "candidates" := PList [] ]}))).
Proof.
  assert (Hlog : snd (generate cfg_secret silent_upstream req_story_hello) =
                 [{| call_model := PStr default_model; call_inputs := "hello";
                     call_config := ∅ |}])
    by (vm_compute; reflexivity).
  assert (Hup : silent_upstream (PStr default_model) "hello" ∅ =
                UReturn None (Some (PDict {[ "candidates" := PList [] ]})))
    by reflexivity.
  repeat (split; [assumption |]).
  exact (proj1 (generate_empty_response cfg_secret silent_upstream
                  req_story_hello _ None _ Hlog Hup (or_introl eq_refl))).
Defined.

Lemma generate_mode_not_random_witness :
  json_or_empty req_story_hello =
    Ret (PDict (list_to_map [("mode", PStr "story"); ("inputs", PStr " hello ")])) ∧
  get_mode (PDict (list_to_map [("mode", PStr "story"); ("inputs", PStr " hello ")])) =
    Ret "story" ∧
  "story" ≠ "random" ∧
  generate cfg_secret echo_upstream req_story_hello =
    generate cfg_secret echo_upstream
      (with_json req_story_hello
         (Ret (PDict (<["mode" := PStr "prompt"]>
                   (list_to_map [("mode", PStr "story"); ("inputs", PStr " hello ")]))))).
Proof.
  assert (Hd : json_or_empty req_story_hello =
               Ret (PDict (list_to_map [("mode", PStr "story"); ("inputs", PStr " hello ")])))
    by (vm_compute; reflexivity).
  assert (Hm : get_mode (PDict (list_to_map [("mode", PStr "story");
                                             ("inputs", PStr " hello ")])) = Ret "story")
    by (vm_compute; reflexivity).
  assert (Hne : "story" ≠ "random") by discriminate.
  repeat (split; [assumption |]).
  exact (proj1 (generate_mode_not_random cfg_secret echo_upstream
                  req_story_hello _ "story" Hd Hm Hne)).
Defined.

(** * Further properties *)

(** ** The authentication gate *)

Lemma truthy_str_or (a b : option string) :
  truthy_str (str_or a b) = truthy_str a || truthy_str b.
Proof. unfold str_or. destruct (truthy_str a) eqn:Ha; [exact Ha | reflexivity]. Qed.

Lemma object_body_not_unreadable (req : Request) :
  object_body req → ¬ unreadable_body req.
Proof.
  intros [d Hd] (v & Hv & Ht & Hn).
  apply json_or_empty_Ret in Hd as (v' & Hv' & Hd).
  rewrite Hv in Hv'. injection Hv' as <-.
  unfold py_or in Hd. rewrite Ht in Hd. exact (Hn d Hd).
Qed.

(** The three kinds of body: [get_json] raises, or returns a value the
    gate can read, or returns one it cannot. *)
Lemma body_cases (req : Request) :
  (∃ e, get_json req = Raise e) ∨ object_body req ∨ unreadable_body req.
Proof.
  destruct (get_json req) as [v|e] eqn:Hv; [| left; eauto]. right.
  destruct (truthy v) eqn:Ht.
  - destruct v as [| b | z | f | s0 | l | d];
      try (right; eexists; split; [exact Hv |];
           split; [exact Ht | discriminate]).
    left. exists d. apply json_or_empty_Ret. eexists. split; [exact Hv |].
    unfold py_or. rewrite Ht. reflexivity.
  - left. exists ∅. apply json_or_empty_Ret. eexists. split; [exact Hv |].
    unfold py_or. rewrite Ht. reflexivity.
Qed.

Lemma gate_unreadable (cfg : Config) (req : Request) :
  gate_active cfg req → unreadable_body req →
  _check_internal_auth cfg req = Raise AttributeError.
Proof.
  intros Ha Hu. pose proof Hu as (v & Hv & _).
  apply (gate_raises_iff cfg req v Ha Hv).
  intros Hobj. exact (object_body_not_unreadable _ Hobj Hu).
Qed.

Lemma gate_cases (cfg : Config) (req : Request) :
  _check_internal_auth cfg req = Ret None ∨
  _check_internal_auth cfg req = Ret (Some auth_error) ∨
  (unreadable_body req ∧ _check_internal_auth cfg req = Raise AttributeError) ∨
  (∃ e, get_json req = Raise e ∧ _check_internal_auth cfg req = Raise e).
Proof.
  destruct (truthy_str (INTERNAL_API_KEY cfg)) eqn:Hs.
  2:{ left. unfold _check_internal_auth. rewrite Hs. reflexivity. }
  destruct (String.eqb (method req) "OPTIONS" || String.eqb (path req) "/health")
    eqn:Hb.
  { left. unfold _check_internal_auth. rewrite Hs, Hb. reflexivity. }
  assert (Ha : gate_active cfg req).
  { apply orb_false_iff in Hb as [Hm Hp].
    split; [exact Hs |]. split; apply String.eqb_neq; assumption. }
  destruct (body_cases req) as [[e He] | [Hobj | Hu]].
  - right. right. right. exists e. split; [exact He |].
    exact (gate_propagates _ _ _ Ha He).
  - rewrite (gate_active_unfold _ _ Ha), (read_channels_object _ Hobj). simpl.
    destruct (negb _ || negb _); [right; left | left]; reflexivity.
  - right. right. left. split; [exact Hu |]. exact (gate_unreadable _ _ Ha Hu).
Qed.

(** X1: whatever the configuration and the request, the gate has one of
    four outcomes: it lets the request through; it answers with the 401
    response; it raises [AttributeError], on a decoded body that is
    truthy and not an object; or it raises the exception that
    [get_json] raised. *)
Theorem gate_outcomes (cfg : Config) (req : Request) :
  _check_internal_auth cfg req = Ret None ∨
  _check_internal_auth cfg req = Ret (Some auth_error) ∨
  (unreadable_body req ∧ _check_internal_auth cfg req = Raise AttributeError) ∨
  (∃ e, get_json req = Raise e ∧ _check_internal_auth cfg req = Raise e).
Proof. exact (gate_cases cfg req). Qed.

(** X2: the gate of the configuration loaded from an environment lets
    every request through exactly when both [INTERNAL_API_KEY] and
    [API_AUTH_TOKEN] are unset or empty. *)
Theorem auth_disabled_iff (env : gmap string string) :
  (∀ req, _check_internal_auth (load_config env) req = Ret None) ↔
  truthy_str (env !! "INTERNAL_API_KEY") = false ∧
  truthy_str (env !! "API_AUTH_TOKEN") = false.
Proof.
  split.
  - intros H. apply orb_false_iff. rewrite <- truthy_str_or.
    destruct (truthy_str (str_or _ _)) eqn:Hs; [| reflexivity].
    specialize (H {| method := "POST"; path := "/api/generate"; headers := ∅;
                     args := ∅; get_json := Ret PNone |}).
    unfold _check_internal_auth in H. simpl in H. rewrite Hs in H.
    discriminate H.
  - intros [Ha Hb] req. unfold _check_internal_auth. simpl.
    rewrite truthy_str_or, Ha, Hb. reflexivity.
Qed.

(** X3: when the gate is active and [get_json] returns [None] (absent
    or undecodable body), a falsy value or an object, the gate passes
    exactly when the first non-empty channel, in the order bearer,
    [x-api-key], query, body, holds the configured secret, and answers
    401 in every other case. *)
Theorem gate_decision (cfg : Config) (req : Request) :
  gate_active cfg req → object_body req →
  (_check_internal_auth cfg req = Ret None ↔
   first_nonempty (channels_in_order req) = INTERNAL_API_KEY cfg) ∧
  (_check_internal_auth cfg req = Ret (Some auth_error) ↔
   first_nonempty (channels_in_order req) ≠ INTERNAL_API_KEY cfg).
Proof.
  intros Ha Hobj.
  set (ch := {| bearer := bearer_channel req; x_api_key := header_channel req;
                query_key := query_channel req; body_key := body_channel req |}).
  pose proof (read_channels_object _ Hobj) as Hch. fold ch in Hch.
  pose proof (gate_passes_iff _ _ _ Ha Hch) as Hpass.
  assert (Ht : truthy_str (provided_of ch) =
               truthy_str (first_nonempty (channels_in_order req)))
    by exact (proj1 (provided_of_first_nonempty ch)).
  assert (Heq : truthy_str (provided_of ch) = true →
                provided_of ch = first_nonempty (channels_in_order req))
    by exact (proj2 (provided_of_first_nonempty ch)).
  assert (Hiff : _check_internal_auth cfg req = Ret None ↔
                 first_nonempty (channels_in_order req) = INTERNAL_API_KEY cfg).
  { rewrite Hpass. split.
    - intros [H1 H2]. rewrite <- (Heq H1). exact H2.
    - intros H. assert (H1 : truthy_str (provided_of ch) = true).
      { rewrite Ht, H. apply Ha. }
      split; [exact H1 |]. rewrite (Heq H1). exact H. }
  split; [exact Hiff |].
  rewrite <- Hiff. rewrite (gate_active_unfold _ _ Ha), Hch. simpl.
  destruct (_ || _); split; intros H; try discriminate; try reflexivity;
    try congruence.
  exfalso. apply H. reflexivity.
Qed.

(** X4: an active gate raises exactly in two cases: when [get_json]
    raises, and then it raises the same exception; and when [get_json]
    returns a value that is truthy and not a JSON object, and then it
    raises [AttributeError]; whatever credentials the request carries. *)
Theorem gate_crash_iff (cfg : Config) (req : Request) (e : PyExn) :
  gate_active cfg req →
  (_check_internal_auth cfg req = Raise e ↔
   get_json req = Raise e ∨ (e = AttributeError ∧ unreadable_body req)).
Proof.
  intros Ha. split.
  - intros Hg. destruct (gate_cases cfg req)
      as [H | [H | [[Hu H] | (e' & He' & H)]]]; rewrite H in Hg;
      try discriminate.
    + injection Hg as <-. right. auto.
    + injection Hg as <-. left. exact He'.
  - intros [He | [-> Hu]].
    + exact (gate_propagates _ _ _ Ha He).
    + exact (gate_unreadable _ _ Ha Hu).
Qed.

Lemma gate_crash_iff_witness :
  gate_active cfg_secret req_array_header ∧
  (_check_internal_auth cfg_secret req_array_header = Raise AttributeError ↔
   get_json req_array_header = Raise AttributeError ∨
   (AttributeError = AttributeError ∧ unreadable_body req_array_header)).
Proof.
  assert (Ha : gate_active cfg_secret req_array_header)
    by (repeat split; discriminate).
  split; [exact Ha |].
  exact (gate_crash_iff cfg_secret req_array_header AttributeError Ha).
Defined.

Lemma gate_decision_witness :
  gate_active cfg_secret req_no_body ∧ object_body req_no_body ∧
  (_check_internal_auth cfg_secret req_no_body = Ret None ↔
   first_nonempty (channels_in_order req_no_body) = INTERNAL_API_KEY cfg_secret).
Proof.
  assert (Ha : gate_active cfg_secret req_no_body)
    by (repeat split; discriminate).
  assert (Hobj : object_body req_no_body)
    by (exists ∅; vm_compute; reflexivity).
  repeat (split; [assumption |]).
  exact (proj1 (gate_decision cfg_secret req_no_body Ha Hobj)).
Defined.

Lemma startswith_split (p s : string) :
  startswith p s = true → s = p +:+ slice_from (String.length p) s.
Proof.
  revert s. induction p as [|a p IH]; intros s; simpl.
  - reflexivity.
  - destruct s as [|b s]; [discriminate |].
    destruct (Ascii.eqb a b) eqn:Hab; [| discriminate].
    apply Ascii.eqb_eq in Hab. subst b. intros H.
    change (String a s = String a (p +:+ slice_from (String.length p) s)).
    f_equal. exact (IH s H).
Qed.

(** X5: the bearer channel of the gate carries the token [t] exactly
    when the [Authorization] header is the seven characters "Bearer "
    followed by [t]; any other header, a lower-case scheme or a missing
    space included, carries none. *)
Theorem bearer_of_iff (auth_header t : string) :
  bearer_of auth_header = Some t ↔ auth_header = "Bearer " +:+ t.
Proof.
  unfold bearer_of. split.
  - destruct (startswith "Bearer " auth_header) eqn:Hs; [| discriminate].
    intros [= <-]. exact (startswith_split "Bearer " auth_header Hs).
  - intros ->. reflexivity.
Qed.

(** ** The parameter mapping on values that are not dictionaries *)

Lemma clean_None_empty : clean_None ∅ = ∅.
Proof. apply map_filter_empty. Qed.

Lemma eq_str_true (k : string) (v : pyval) : eq_str k v = true ↔ v = PStr k.
Proof.
  destruct v; simpl; try (split; discriminate).
  rewrite String.eqb_eq. split; [intros -> | intros [= ->]]; reflexivity.
Qed.

Lemma existsb_recognised (test : string → bool) :
  existsb test recognised_keys = true ↔
  ∃ k, k ∈ recognised_keys ∧ test k = true.
Proof.
  rewrite existsb_exists. split; intros (k & Hk & Ht); exists k;
    (split; [apply list_elem_of_In; exact Hk | exact Ht]).
Qed.

Lemma map_parameters_test (v : pyval) (test : string → bool) :
  (∀ k gc, copy_key v k k gc = if test k then Raise TypeError else Ret gc) →
  (∀ gc, copy_key v "max_new_tokens" "max_output_tokens" gc =
         if test "max_new_tokens" then Raise TypeError else Ret gc) →
  map_parameters v =
    if existsb test recognised_keys then Raise TypeError else Ret ∅.
Proof.
  intros H H4. unfold map_parameters. simpl existsb.
  rewrite H. destruct (test "temperature"); [reflexivity |]. simpl.
  rewrite H. destruct (test "top_p"); [reflexivity |]. simpl.
  rewrite H. destruct (test "top_k"); [reflexivity |]. simpl.
  rewrite H4. destruct (test "max_new_tokens"); [reflexivity |]. simpl.
  rewrite clean_None_empty. reflexivity.
Qed.

Lemma copy_key_str (s src dst : string) (gc : gmap string pyval) :
  copy_key (PStr s) src dst gc =
    if is_substring src s then Raise TypeError else Ret gc.
Proof. unfold copy_key. simpl. destruct (is_substring src s); reflexivity. Qed.

Lemma copy_key_list (l : list pyval) (src dst : string) (gc : gmap string pyval) :
  copy_key (PList l) src dst gc =
    if existsb (eq_str src) l then Raise TypeError else Ret gc.
Proof. unfold copy_key. simpl. destruct (existsb _ l); reflexivity. Qed.

Lemma map_parameters_str (s : string) :
  map_parameters (PStr s) =
    if existsb (fun k => is_substring k s) recognised_keys
    then Raise TypeError else Ret ∅.
Proof.
  apply (map_parameters_test (PStr s) (fun k => is_substring k s));
    intros; apply copy_key_str.
Qed.

Lemma map_parameters_list (l : list pyval) :
  map_parameters (PList l) =
    if existsb (fun k => existsb (eq_str k) l) recognised_keys
    then Raise TypeError else Ret ∅.
Proof.
  apply (map_parameters_test (PList l) (fun k => existsb (eq_str k) l));
    intros; apply copy_key_list.
Qed.

Lemma existsb_eq_str (k : string) (l : list pyval) :
  existsb (eq_str k) l = true ↔ PStr k ∈ l.
Proof.
  rewrite existsb_exists. split.
  - intros (v & Hv & Hk). apply eq_str_true in Hk. subst v.
    apply list_elem_of_In. exact Hv.
  - intros H. exists (PStr k). split; [apply list_elem_of_In; exact H |].
    apply eq_str_true. reflexivity.
Qed.

(** X6: the parameter mapping raises [TypeError] exactly on [None], a
    boolean, a number, a string that contains a recognised key and a
    list that has a recognised key for element; it raises no other
    exception (no [KeyError]: every subscript is guarded by its [in]
    test), and on a value that is not a dictionary a mapping that
    completes yields the empty configuration. *)
Theorem map_parameters_failure (v : pyval) :
  (map_parameters v = Raise TypeError ↔ mapping_fails v) ∧
  (∀ e, map_parameters v = Raise e → e = TypeError) ∧
  (∀ gc, map_parameters v = Ret gc → (∀ p, v ≠ PDict p) → gc = ∅).
Proof.
  destruct v as [| b | z | f | s | l | p].
  1-4: (split; [split; [intros _; exact I | intros _; reflexivity] |];
        split; [intros e [= <-]; reflexivity | intros gc H; discriminate H]).
  - rewrite map_parameters_str. simpl mapping_fails.
    rewrite <- (existsb_recognised (fun k => is_substring k s)).
    destruct (existsb _ recognised_keys).
    + split; [tauto |]. split; [intros e [= <-]; reflexivity | discriminate].
    + split; [split; discriminate |].
      split; [discriminate | intros gc [= <-] _; reflexivity].
  - rewrite map_parameters_list. simpl mapping_fails.
    assert (Hiff : (∃ k, k ∈ recognised_keys ∧ PStr k ∈ l) ↔
                   existsb (fun k => existsb (eq_str k) l) recognised_keys = true).
    { rewrite existsb_recognised. split; intros (k & Hk & H); exists k;
        (split; [exact Hk | apply existsb_eq_str; exact H]). }
    rewrite Hiff.
    destruct (existsb _ recognised_keys).
    + split; [tauto |]. split; [intros e [= <-]; reflexivity | discriminate].
    + split; [split; discriminate |].
      split; [discriminate | intros gc [= <-] _; reflexivity].
  - rewrite map_parameters_dict. simpl mapping_fails.
    split; [split; [discriminate | contradiction] |].
    split; [discriminate |]. intros gc _ H. destruct (H p). reflexivity.
Qed.

(** ** Trimming *)

Lemma lstrip_all_space (s : string) : all_space s = true → lstrip s = "".
Proof.
  induction s as [|c s IH]; simpl; [reflexivity |].
  intros H. apply andb_true_iff in H as [Hc Hs]. rewrite Hc. exact (IH Hs).
Qed.

Lemma rstrip_all_space (s : string) : all_space s = true → rstrip s = "".
Proof.
  induction s as [|c s IH]; simpl; [reflexivity |].
  intros H. apply andb_true_iff in H as [Hc Hs]. rewrite (IH Hs), Hc.
  reflexivity.
Qed.

Lemma rstrip_empty (s : string) : rstrip s = "" → all_space s = true.
Proof.
  induction s as [|c s IH]; simpl; [reflexivity |].
  destruct (rstrip s) eqn:Hr; [| discriminate].
  destruct (isspace c); [| discriminate]. intros _. exact (IH eq_refl).
Qed.

Lemma lstrip_space_inv (s : string) :
  all_space (lstrip s) = true → all_space s = true.
Proof.
  induction s as [|c s IH]; simpl; [reflexivity |].
  destruct (isspace c) eqn:Hc; simpl.
  - exact IH.
  - rewrite Hc. discriminate.
Qed.

Lemma strip_empty_iff (s : string) : strip s = "" ↔ all_space s = true.
Proof.
  unfold strip. split.
  - intros H. apply lstrip_space_inv, rstrip_empty, H.
  - intros H. rewrite (lstrip_all_space s H). reflexivity.
Qed.

Lemma lstrip_pad (a s : string) :
  all_space a = true → lstrip (a +:+ s) = lstrip s.
Proof.
  induction a as [|c a IH]; intros H; [reflexivity |].
  simpl in H. apply andb_true_iff in H as [Hc Ha].
  change (lstrip (String c (a +:+ s)) = lstrip s). simpl. rewrite Hc.
  exact (IH Ha).
Qed.

Lemma rstrip_pad (s b : string) :
  all_space b = true → rstrip (s +:+ b) = rstrip s.
Proof.
  intros Hb. induction s as [|c s IH].
  - exact (rstrip_all_space b Hb).
  - change (rstrip (String c (s +:+ b)) = rstrip (String c s)). simpl.
    rewrite IH. reflexivity.
Qed.

Lemma lstrip_split (s : string) :
  ∃ a, all_space a = true ∧ s = a +:+ lstrip s.
Proof.
  induction s as [|c s (a & Ha & IH)]; [exists ""; split; reflexivity |].
  simpl. destruct (isspace c) eqn:Hc.
  - exists (String c a). split; [simpl; rewrite Hc; exact Ha |].
    change (String c s = String c (a +:+ lstrip s)). f_equal. exact IH.
  - exists "". split; reflexivity.
Qed.

Lemma rstrip_split (s : string) :
  ∃ b, all_space b = true ∧ s = rstrip s +:+ b.
Proof.
  induction s as [|c s (b & Hb & IH)]; [exists ""; split; reflexivity |].
  simpl. destruct (rstrip s) as [|c' r] eqn:Hr.
  - change ("" +:+ b) with b in IH. subst s.
    destruct (isspace c) eqn:Hc.
    + exists (String c b). split; [simpl; rewrite Hc; exact Hb | reflexivity].
    + exists b. split; [exact Hb | reflexivity].
  - exists b. split; [exact Hb |].
    change (String c s = String c (String c' r +:+ b)). f_equal. exact IH.
Qed.

Lemma strip_split (s : string) :
  ∃ a b, all_space a = true ∧ all_space b = true ∧ s = a +:+ strip s +:+ b.
Proof.
  destruct (lstrip_split s) as (a & Ha & Hs).
  destruct (rstrip_split (lstrip s)) as (b & Hb & Hl).
  exists a, b. split; [exact Ha | split; [exact Hb |]].
  unfold strip. rewrite <- Hl. exact Hs.
Qed.

(** ** The fields [inputs] and [mode] *)

Lemma get_inputs_blank (d : gmap string pyval) :
  get_inputs (PDict d) = Ret "" ↔ blank (d !! "inputs").
Proof.
  unfold get_inputs, blank, py_get, py_or. cbn.
  destruct (d !! "inputs") as [v|]; cbn.
  2:{ split; [left; reflexivity | reflexivity]. }
  destruct (truthy v) eqn:Ht.
  - destruct v as [| b | z | f | s | l | p]; cbn;
      try (split; [discriminate | intros [H | (s' & H & _)]; discriminate H]).
    split.
    + intros [= H]. right. exists s. split; [reflexivity |].
      apply strip_empty_iff, H.
    + intros [H | (s' & [= <-] & H)]; [discriminate H |].
      apply strip_empty_iff in H. rewrite H. reflexivity.
  - split; [left; reflexivity | reflexivity].
Qed.

(** X7: the trimmed mode of a JSON object body is "random" exactly when
    its [mode] field is the string "random" with whitespace, possibly
    none, on either side; any other spelling or type is not the random
    mode. *)
Theorem get_mode_random (d : gmap string pyval) :
  get_mode (PDict d) = Ret "random" ↔
  ∃ a b, all_space a = true ∧ all_space b = true ∧
         d !! "mode" = Some (PStr (a +:+ "random" +:+ b)).
Proof.
  unfold get_mode, py_get, py_or. cbn. split.
  - destruct (d !! "mode") as [v|]; cbn; [| discriminate].
    destruct (truthy v) eqn:Ht; [| discriminate].
    destruct v as [| ? | ? | ? | s | ? | ?]; cbn; try discriminate.
    intros [= H]. destruct (strip_split s) as (a & b & Ha & Hb & Hs).
    exists a, b. rewrite H in Hs. rewrite <- Hs. auto.
  - intros (a & b & Ha & Hb & ->).
    assert (Hs : strip (a +:+ "random" +:+ b) = "random").
    { unfold strip. rewrite (lstrip_pad _ _ Ha).
      change (lstrip ("random" +:+ b)) with ("random" +:+ b).
      rewrite (rstrip_pad _ _ Hb). reflexivity. }
    destruct (a +:+ "random" +:+ b) as [|c s] eqn:Hx; [discriminate Hs |].
    cbn. unfold strip in Hs. cbn in Hs. rewrite Hs. reflexivity.
Qed.

(** ** The outcomes of [generate] *)

Lemma gate_raise_kind (cfg : Config) (req : Request) (e : PyExn) :
  _check_internal_auth cfg req = Raise e →
  e = AttributeError ∨ get_json req = Raise e.
Proof.
  intros Hg. destruct (gate_cases cfg req)
    as [H | [H | [[_ H] | (e' & He' & H)]]]; rewrite H in Hg;
    try discriminate; injection Hg as <-; auto.
Qed.

Lemma gate_response (cfg : Config) (req : Request) (r : Response) :
  _check_internal_auth cfg req = Ret (Some r) → r = auth_error.
Proof.
  unfold _check_internal_auth.
  destruct (negb _); [discriminate |].
  destruct (_ || _); [discriminate |].
  destruct (read_channels req) as [ch|]; simpl; [| discriminate].
  destruct (_ || _); [intros [= <-]; reflexivity | discriminate].
Qed.

Lemma gate_object_body_returns (cfg : Config) (req : Request) :
  object_body req → ∃ o, _check_internal_auth cfg req = Ret o.
Proof.
  intros Hobj. unfold _check_internal_auth.
  destruct (negb _); [eauto |].
  destruct (_ || _); [eauto |].
  rewrite (read_channels_object _ Hobj). simpl.
  destruct (_ || _); eauto.
Qed.

Lemma py_get_raise_kind (v : pyval) (k : string) (e : PyExn) :
  py_get v k = Raise e → e = AttributeError.
Proof. destruct v; simpl; intros [= <-] || discriminate; reflexivity. Qed.

Lemma py_strip_raise_kind (v : pyval) (e : PyExn) :
  py_strip v = Raise e → e = AttributeError.
Proof. destruct v; simpl; intros [= <-] || discriminate; reflexivity. Qed.

Lemma get_mode_raise_kind (data : pyval) (e : PyExn) :
  get_mode data = Raise e → e = AttributeError.
Proof.
  unfold get_mode. destruct (py_get data "mode") eqn:Hg; simpl.
  - apply py_strip_raise_kind.
  - intros [= <-]. exact (py_get_raise_kind _ _ _ Hg).
Qed.

Lemma get_inputs_raise_kind (data : pyval) (e : PyExn) :
  get_inputs data = Raise e → e = AttributeError.
Proof.
  unfold get_inputs. destruct (py_get data "inputs") eqn:Hg; simpl.
  - apply py_strip_raise_kind.
  - intros [= <-]. exact (py_get_raise_kind _ _ _ Hg).
Qed.

Lemma get_model_name_raise_kind (data : pyval) (e : PyExn) :
  get_model_name data = Raise e → e = AttributeError.
Proof.
  unfold get_model_name. destruct (py_get data "model") eqn:Hg; simpl.
  - discriminate.
  - intros [= <-]. exact (py_get_raise_kind _ _ _ Hg).
Qed.

Lemma get_parameters_raise_kind (data : pyval) (e : PyExn) :
  get_parameters data = Raise e → e = AttributeError.
Proof.
  unfold get_parameters. destruct (py_get data "parameters") eqn:Hg; simpl.
  - discriminate.
  - intros [= <-]. exact (py_get_raise_kind _ _ _ Hg).
Qed.

Lemma map_parameters_raise_kind (v : pyval) (e : PyExn) :
  map_parameters v = Raise e → e = TypeError.
Proof.
  destruct v as [| b | z | f | s | l | p]; try (intros [= <-]; reflexivity).
  - rewrite map_parameters_str. destruct (existsb _ _);
      [intros [= <-]; reflexivity | discriminate].
  - rewrite map_parameters_list. destruct (existsb _ _);
      [intros [= <-]; reflexivity | discriminate].
  - rewrite map_parameters_dict. discriminate.
Qed.

(** The response of the [try] block. *)
Lemma call_upstream_inv
    (upstream : pyval -> string -> gmap string pyval -> UpstreamResult)
    (model_name : pyval) (inputs : string) (gc : gmap string pyval) :
  ∃ r, call_upstream upstream model_name inputs gc =
         (Ret r, [{| call_model := model_name; call_inputs := inputs;
                     call_config := gc |}]) ∧
       ((∃ msg, upstream model_name inputs gc = URaise msg ∧ r = upstream_error msg) ∨
        (∃ text to_dict, upstream model_name inputs gc = UReturn text to_dict ∧
           truthy (default PNone text) = false ∧ r = empty_response_error to_dict) ∨
        (∃ text to_dict, upstream model_name inputs gc = UReturn (Some text) to_dict ∧
           truthy text = true ∧ r = success_response text)).
Proof.
  unfold call_upstream.
  destruct (upstream model_name inputs gc) as [msg | text to_dict] eqn:Hup.
  - eexists. split; [reflexivity |]. left. eauto.
  - destruct (truthy (default PNone text)) eqn:Ht; simpl.
    + eexists. split; [reflexivity |]. right. right.
      destruct text as [t|]; [| discriminate Ht]. eauto.
    + eexists. split; [reflexivity |]. right. left. eauto.
Qed.

(** Every path through the handler. *)
Lemma generate_inv (cfg : Config)
    (upstream : pyval -> string -> gmap string pyval -> UpstreamResult)
    (req : Request) :
  (method req = "OPTIONS" ∧
   generate cfg upstream req = (Ret {| body := Text ""; status := 204 |}, [])) ∨
  (method req ≠ "OPTIONS" ∧
   ((∃ e, (e = AttributeError ∨ e = TypeError ∨ get_json req = Raise e) ∧
          generate cfg upstream req = (Raise e, [])) ∨
    (∃ r, r ∈ [auth_error; not_configured_error; missing_inputs_error] ∧
          generate cfg upstream req = (Ret r, [])) ∨
    (_check_internal_auth cfg req = Ret None ∧
     truthy_str (GOOGLE_API_KEY cfg) = true ∧
     ∃ c, generate cfg upstream req =
            call_upstream upstream (call_model c) (call_inputs c) (call_config c)))).
Proof.
  unfold generate.
  destruct (String.eqb (method req) "OPTIONS") eqn:Hm.
  { left. apply String.eqb_eq in Hm. auto. }
  right. apply String.eqb_neq in Hm. split; [exact Hm |].
  destruct (_check_internal_auth cfg req) as [[r|]|e] eqn:Hg.
  - right. left. exists r. rewrite (gate_response _ _ _ Hg).
    split; [repeat constructor | reflexivity].
  - destruct (truthy_str (GOOGLE_API_KEY cfg)) eqn:Hk; simpl.
    2:{ right. left. exists not_configured_error.
        split; [repeat constructor | reflexivity]. }
    unfold generate_body.
    destruct (json_or_empty req) as [data|e] eqn:Hdata.
    2:{ left. exists e. split; [| reflexivity].
        right. right. apply json_or_empty_Raise, Hdata. }
    unfold generate_data.
    destruct (get_mode _) as [mode|e] eqn:Hmode.
    2:{ left. exists e. split; [| reflexivity]. rewrite (get_mode_raise_kind _ _ Hmode). auto. }
    destruct (get_inputs _) as [inputs|e] eqn:Hinputs.
    2:{ left. exists e. split; [| reflexivity]. rewrite (get_inputs_raise_kind _ _ Hinputs). auto. }
    destruct (get_model_name _) as [model_name|e] eqn:Hmodel.
    2:{ left. exists e. split; [| reflexivity]. rewrite (get_model_name_raise_kind _ _ Hmodel). auto. }
    destruct (get_parameters _) as [parameters|e] eqn:Hparams.
    2:{ left. exists e. split; [| reflexivity]. rewrite (get_parameters_raise_kind _ _ Hparams). auto. }
    destruct (_ && _).
    { right. left. exists missing_inputs_error.
      split; [repeat constructor | reflexivity]. }
    destruct (map_parameters parameters) as [gc|e] eqn:Hmap.
    2:{ left. exists e. split; [| reflexivity]. rewrite (map_parameters_raise_kind _ _ Hmap). auto. }
    right. right. split; [reflexivity | split; [reflexivity |]].
    eexists {| call_model := model_name; call_config := gc |}. reflexivity.
  - left. exists e. split; [| reflexivity].
    destruct (gate_raise_kind _ _ _ Hg) as [-> | He]; auto.
Qed.

Lemma call_upstream_log
    (upstream : pyval -> string -> gmap string pyval -> UpstreamResult)
    (model_name : pyval) (inputs : string) (gc : gmap string pyval) :
  snd (call_upstream upstream model_name inputs gc) =
    [{| call_model := model_name; call_inputs := inputs; call_config := gc |}].
Proof. reflexivity. Qed.

Lemma mapped_config_empty : mapped_config ∅ = ∅.
Proof. reflexivity. Qed.

(** X8: for a request that reaches the body of the handler with a JSON
    object body and a trimmed mode other than "random", the answer is
    the 400 "missing inputs" error without any call of the provider
    exactly when the [inputs] field is missing, falsy, or a string of
    whitespace only. *)
Theorem generate_missing_inputs_iff (cfg : Config)
    (upstream : pyval -> string -> gmap string pyval -> UpstreamResult)
    (req : Request) (d : gmap string pyval) (mode : string) :
  reaches_body cfg req → json_or_empty req = Ret (PDict d) →
  get_mode (PDict d) = Ret mode → mode ≠ "random" →
  (generate cfg upstream req = (Ret missing_inputs_error, []) ↔
   blank (d !! "inputs")).
Proof.
  intros Hr Hd Hm Hne. rewrite <- get_inputs_blank. split.
  - rewrite (generate_reaches_body _ _ _ Hr).
    destruct (get_inputs (PDict d)) as [inputs|e] eqn:Hi.
    + rewrite (generate_body_trimmed _ _ _ _ _ Hd Hm Hi).
      apply String.eqb_neq in Hne. rewrite Hne. simpl.
      destruct (String.eqb inputs "") eqn:Hin.
      * apply String.eqb_eq in Hin. subst inputs. reflexivity.
      * destruct (map_parameters _); [| discriminate].
        intros H. apply (f_equal snd) in H. rewrite call_upstream_log in H.
        discriminate H.
    + unfold generate_body. rewrite Hd. unfold generate_data.
      rewrite Hm, Hi. discriminate.
  - intros Hi. apply (generate_body_missing_inputs cfg upstream req mode Hr);
      [| exact Hne |].
    + unfold request_mode. rewrite Hd. exact Hm.
    + unfold request_inputs. rewrite Hd. exact Hi.
Qed.

Lemma generate_missing_inputs_iff_witness :
  reaches_body cfg_secret req_story_blank ∧
  request_mode req_story_blank = Ret "story" ∧
  "story" ≠ "random" ∧
  (generate cfg_secret echo_upstream req_story_blank =
     (Ret missing_inputs_error, []) ↔
   blank (Some (PStr "   "))).
Proof.
  assert (Hr : reaches_body cfg_secret req_story_blank)
    by (repeat split; vm_compute; reflexivity).
  assert (Hm : request_mode req_story_blank = Ret "story")
    by (vm_compute; reflexivity).
  assert (Hne : "story" ≠ "random") by discriminate.
  repeat (split; [assumption |]).
  exact (generate_missing_inputs_iff cfg_secret echo_upstream req_story_blank
           (list_to_map [("mode", PStr " story "); ("inputs", PStr "   ")])
           "story" Hr eq_refl Hm Hne).
Defined.

(** X9: a request that reaches the body of the handler with a JSON
    object body, a trimmed mode and trimmed inputs, inputs that are
    empty only in mode "random", and [parameters] missing, falsy or an
    object, invokes the provider exactly once: with the client's [model]
    when it is truthy and the default model otherwise, with the trimmed
    inputs when they are not empty (also in mode "random") and the
    default text otherwise, and with the mapped parameters. *)
Theorem generate_forwards (cfg : Config)
    (upstream : pyval -> string -> gmap string pyval -> UpstreamResult)
    (req : Request) (d : gmap string pyval) (mode inputs : string) :
  reaches_body cfg req → json_or_empty req = Ret (PDict d) →
  get_mode (PDict d) = Ret mode → get_inputs (PDict d) = Ret inputs →
  (inputs = "" → mode = "random") →
  dict_or_falsy (d !! "parameters") →
  snd (generate cfg upstream req) =
    [{| call_model := py_or (default PNone (d !! "model")) (PStr default_model);
        call_inputs := if String.eqb inputs "" then default_inputs else inputs;
        call_config := match d !! "parameters" with
                       | Some (PDict p) => mapped_config p
                       | _ => ∅
                       end |}].
Proof.
  intros Hr Hd Hm Hi Hrand Hp.
  rewrite (generate_reaches_body _ _ _ Hr), (generate_body_trimmed _ _ _ _ _ Hd Hm Hi).
  assert (Hcond : negb (String.eqb mode "random") && String.eqb inputs "" = false).
  { destruct (String.eqb inputs "") eqn:Hin; [| apply andb_false_r].
    apply String.eqb_eq in Hin. rewrite (Hrand Hin). reflexivity. }
  rewrite Hcond.
  assert (Hin : (if String.eqb mode "random" && String.eqb inputs ""
                 then default_inputs else inputs) =
                (if String.eqb inputs "" then default_inputs else inputs)).
  { destruct (String.eqb inputs "") eqn:Hin; [| rewrite andb_false_r; reflexivity].
    apply String.eqb_eq in Hin. rewrite (Hrand Hin). reflexivity. }
  rewrite Hin.
  assert (Hmap : map_parameters (py_or (default PNone (d !! "parameters")) (PDict ∅)) =
                 Ret (match d !! "parameters" with
                      | Some (PDict p) => mapped_config p
                      | _ => ∅
                      end)).
  { unfold py_or. destruct Hp as [Hf | (p & ->)].
    - rewrite Hf, map_parameters_dict, mapped_config_empty.
      destruct (d !! "parameters") as [[| ? | ? | ? | ? | ? | p]|];
        try reflexivity.
      simpl in Hf. apply negb_false_iff, Nat.eqb_eq, map_size_empty_inv in Hf.
      rewrite Hf, mapped_config_empty. reflexivity.
    - simpl default. destruct (truthy (PDict p)) eqn:Ht.
      + apply map_parameters_dict.
      + simpl in Ht. apply negb_false_iff, Nat.eqb_eq, map_size_empty_inv in Ht.
        rewrite Ht. apply map_parameters_dict. }
  rewrite Hmap. reflexivity.
Qed.

Lemma generate_forwards_witness :
  reaches_body cfg_secret req_story_hello ∧
  (("hello" : string) = "" → ("story" : string) = "random") ∧
  dict_or_falsy (None : option pyval) ∧
  snd (generate cfg_secret echo_upstream req_story_hello) =
    [{| call_model := PStr default_model; call_inputs := "hello";
        call_config := ∅ |}].
Proof.
  assert (Hr : reaches_body cfg_secret req_story_hello)
    by (repeat split; vm_compute; reflexivity).
  assert (Hrand : ("hello" : string) = "" → ("story" : string) = "random")
    by discriminate.
  assert (Hp : dict_or_falsy (None : option pyval)) by (left; reflexivity).
  repeat (split; [assumption |]).
  exact (generate_forwards cfg_secret echo_upstream req_story_hello
           (list_to_map [("mode", PStr "story"); ("inputs", PStr " hello ")])
           "story" "hello" Hr eq_refl eq_refl eq_refl Hrand Hp).
Defined.

(** ** The provider calls of [generate] *)

(** X10: the handler invokes the provider at most once per request:
    there is no retry, whatever the provider answers. *)
Theorem generate_single_call (cfg : Config)
    (upstream : pyval -> string -> gmap string pyval -> UpstreamResult)
    (req : Request) :
  (length (snd (generate cfg upstream req)) <= 1)%nat.
Proof.
  destruct (generate_inv cfg upstream req)
    as [[_ ->] | [_ [(e & _ & ->) | [(r & _ & ->) | (_ & _ & c & ->)]]]];
    simpl; lia.
Qed.

(** X11: the provider is invoked only for a request that is not a
    pre-flight request, that the gate lets through, and with the provider
    key configured: a request answered 401, or one whose credentials make
    the gate raise, never reaches the provider. *)
Theorem generate_call_guard (cfg : Config)
    (upstream : pyval -> string -> gmap string pyval -> UpstreamResult)
    (req : Request) :
  snd (generate cfg upstream req) ≠ [] →
  method req ≠ "OPTIONS" ∧
  _check_internal_auth cfg req = Ret None ∧
  truthy_str (GOOGLE_API_KEY cfg) = true.
Proof.
  destruct (generate_inv cfg upstream req)
    as [[_ ->] | [Hm [(e & _ & ->) | [(r & _ & ->) | (Hg & Hk & _)]]]];
    simpl; try (intros H; destruct (H eq_refl)).
  auto.
Qed.

Lemma generate_call_guard_witness :
  snd (generate cfg_secret echo_upstream req_story_hello) ≠ [] ∧
  _check_internal_auth cfg_secret req_story_hello = Ret None.
Proof.
  assert (Hlog : snd (generate cfg_secret echo_upstream req_story_hello) ≠ [])
    by (vm_compute; discriminate).
  split; [exact Hlog |].
  exact (proj1 (proj2 (generate_call_guard cfg_secret echo_upstream
                         req_story_hello Hlog))).
Defined.

(** X12: when an exception leaves the handler, the provider has not been
    invoked, and the exception is an [AttributeError], a [TypeError], or
    the exception that [get_json] raised: once the provider is called
    the handler always returns a response, also when the provider
    raises. *)
Theorem generate_raise_before_call (cfg : Config)
    (upstream : pyval -> string -> gmap string pyval -> UpstreamResult)
    (req : Request) (e : PyExn) :
  fst (generate cfg upstream req) = Raise e →
  snd (generate cfg upstream req) = [] ∧
  (e = AttributeError ∨ e = TypeError ∨ get_json req = Raise e).
Proof.
  destruct (generate_inv cfg upstream req)
    as [[_ ->] | [_ [(e' & He & ->) | [(r & _ & ->) | (_ & _ & c & ->)]]]].
  - discriminate.
  - intros [= <-]. auto.
  - discriminate.
  - destruct (call_upstream_inv upstream (call_model c) (call_inputs c)
                (call_config c)) as (r & -> & _).
    discriminate.
Qed.

Lemma generate_raise_before_call_witness :
  fst (generate cfg_secret echo_upstream req_random_bad_parameters) =
    Raise TypeError ∧
  snd (generate cfg_secret echo_upstream req_random_bad_parameters) = [].
Proof.
  assert (H : fst (generate cfg_secret echo_upstream req_random_bad_parameters) =
              Raise TypeError) by (vm_compute; reflexivity).
  split; [exact H |].
  exact (proj1 (generate_raise_before_call cfg_secret echo_upstream
                  req_random_bad_parameters TypeError H)).
Defined.

(** ** The responses of [generate] *)

Lemma call_upstream_status
    (upstream : pyval -> string -> gmap string pyval -> UpstreamResult)
    (model_name : pyval) (inputs : string) (gc : gmap string pyval)
    (r : Response) :
  fst (call_upstream upstream model_name inputs gc) = Ret r →
  (status r = 500 ∧ ∃ msg, json_field r "error" = Some (PStr msg)) ∨
  (status r = 502 ∧ json_field r "error" = Some (PStr "Empty response")) ∨
  (status r = 200 ∧ json_field r "error" = None ∧
   ∃ t, json_field r "text" = Some t ∧ truthy t = true).
Proof.
  destruct (call_upstream_inv upstream model_name inputs gc)
    as (r' & -> & [(msg & _ & ->) | [(t & td & _ & _ & ->) | (t & td & _ & Ht & ->)]]);
    simpl; intros [= <-].
  - left. split; [reflexivity |]. exists msg. reflexivity.
  - right. left. split; reflexivity.
  - right. right. split; [reflexivity |]. split; [reflexivity |].
    exists t. split; [reflexivity | exact Ht].
Qed.

(** X13: every response of the handler has one of the status codes 200,
    204, 400, 401, 500 and 502, and the status is 204 exactly for a
    pre-flight ([OPTIONS]) request. *)
Theorem generate_status (cfg : Config)
    (upstream : pyval -> string -> gmap string pyval -> UpstreamResult)
    (req : Request) (r : Response) :
  fst (generate cfg upstream req) = Ret r →
  status r ∈ generate_statuses ∧
  (status r = 204 ↔ method req = "OPTIONS").
Proof.
  unfold generate_statuses.
  destruct (generate_inv cfg upstream req)
    as [[Hm ->] | [Hm [(e & _ & ->) | [(r' & Hr & ->) | (_ & _ & c & ->)]]]];
    [| discriminate | |].
  - intros [= <-]. simpl. split; [set_solver | tauto].
  - intros [= <-].
    apply elem_of_cons in Hr as [-> | Hr];
      [| apply elem_of_cons in Hr as [-> | Hr];
         [| apply list_elem_of_singleton in Hr as ->]];
      simpl; (split; [set_solver | split; [discriminate | contradiction]]).
  - intros Hc. apply call_upstream_status in Hc
      as [[-> _] | [[-> _] | [-> _]]];
      (split; [set_solver | split; [discriminate | contradiction]]).
Qed.

Lemma generate_status_witness :
  fst (generate cfg_secret echo_upstream req_story_hello) =
    Ret (success_response (PStr "hello")) ∧
  status (success_response (PStr "hello")) ∈ generate_statuses.
Proof.
  assert (H : fst (generate cfg_secret echo_upstream req_story_hello) =
              Ret (success_response (PStr "hello"))) by (vm_compute; reflexivity).
  split; [exact H |].
  exact (proj1 (generate_status cfg_secret echo_upstream req_story_hello _ H)).
Defined.

(** X14: every response of the handler other than the 204 and the 200
    carries a JSON object with a string under [error]; the 200 response
    carries no [error] field and a truthy [text]. *)
Theorem generate_error_field (cfg : Config)
    (upstream : pyval -> string -> gmap string pyval -> UpstreamResult)
    (req : Request) (r : Response) :
  fst (generate cfg upstream req) = Ret r →
  (status r ≠ 200 → status r ≠ 204 →
   ∃ msg, json_field r "error" = Some (PStr msg)) ∧
  (status r = 200 →
   json_field r "error" = None ∧
   ∃ t, json_field r "text" = Some t ∧ truthy t = true).
Proof.
  destruct (generate_inv cfg upstream req)
    as [[Hm ->] | [Hm [(e & _ & ->) | [(r' & Hr & ->) | (_ & _ & c & ->)]]]];
    [| discriminate | |].
  - intros [= <-]. simpl. split; [intros _ H; destruct (H eq_refl) | discriminate].
  - intros [= <-].
    apply elem_of_cons in Hr as [-> | Hr];
      [| apply elem_of_cons in Hr as [-> | Hr];
         [| apply list_elem_of_singleton in Hr as ->]];
      (split; [intros _ _; eexists; reflexivity | discriminate]).
  - intros Hc. apply call_upstream_status in Hc
      as [[Hs [msg Hmsg]] | [[Hs Hmsg] | [Hs Hbody]]]; rewrite Hs.
    + split; [eauto | discriminate].
    + split; [eauto | discriminate].
    + split; [intros H; destruct (H eq_refl) | intros _; exact Hbody].
Qed.

Lemma generate_error_field_witness :
  fst (generate cfg_secret silent_upstream req_story_hello) =
    Ret (empty_response_error (Some (PDict {[ "candidates" := PList [] ]}))) ∧
  ∃ msg, json_field (empty_response_error
                       (Some (PDict {[ "candidates" := PList [] ]})))
           "error" = Some (PStr msg).
Proof.
  assert (H : fst (generate cfg_secret silent_upstream req_story_hello) =
              Ret (empty_response_error (Some (PDict {[ "candidates" := PList [] ]}))))
    by (vm_compute; reflexivity).
  split; [exact H |].
  apply (proj1 (generate_error_field cfg_secret silent_upstream
                  req_story_hello _ H)); discriminate.
Defined.

(** X15: when the handler has invoked the provider and the call returned
    a response with a truthy [text], the handler answers 200 with that
    text both under [text] and under
    [candidates[0].content.parts[0].text], the role of the content being
    "model". *)
Theorem generate_success (cfg : Config)
    (upstream : pyval -> string -> gmap string pyval -> UpstreamResult)
    (req : Request) (c : UpstreamCall) (text : pyval) (to_dict : option pyval) :
  snd (generate cfg upstream req) = [c] →
  upstream (call_model c) (call_inputs c) (call_config c) =
    UReturn (Some text) to_dict →
  truthy text = true →
  ∃ r, fst (generate cfg upstream req) = Ret r ∧ status r = 200 ∧
       json_field r "text" = Some text ∧
       response_path r [Key "candidates"; Index 0; Key "content"; Key "parts";
                        Index 0; Key "text"] = Some text ∧
       response_path r [Key "candidates"; Index 0; Key "content"; Key "role"] =
         Some (PStr "model").
Proof.
  intros Hlog Hup Ht. exists (success_response text).
  split; [| repeat split].
  destruct (generate_log cfg upstream req) as [Hnil | (c' & Hgen & Hc')].
  - rewrite Hnil in Hlog. discriminate.
  - rewrite Hc' in Hlog. injection Hlog as ->.
    rewrite Hgen. unfold call_upstream. simpl. rewrite Hup. simpl.
    rewrite Ht. reflexivity.
Qed.

Lemma generate_success_witness :
  snd (generate cfg_secret echo_upstream req_story_hello) =
    [{| call_model := PStr default_model; call_inputs := "hello";
        call_config := ∅ |}] ∧
  truthy (PStr "hello") = true ∧
  ∃ r, fst (generate cfg_secret echo_upstream req_story_hello) = Ret r ∧
       status r = 200 ∧ json_field r "text" = Some (PStr "hello").
Proof.
  assert (Hlog : snd (generate cfg_secret echo_upstream req_story_hello) =
                 [{| call_model := PStr default_model; call_inputs := "hello";
                     call_config := ∅ |}]) by (vm_compute; reflexivity).
  assert (Ht : truthy (PStr "hello") = true) by reflexivity.
  repeat (split; [assumption |]).
  destruct (generate_success cfg_secret echo_upstream req_story_hello _
              (PStr "hello") None Hlog eq_refl Ht) as (r & Hr & Hs & Htext & _).
  exists r. auto.
Defined.

(** X16: when the handler has invoked the provider and the call raised
    an exception with message [msg], the handler answers 500 with [msg]
    under [error]; the exception does not leave the handler. *)
Theorem generate_upstream_raises (cfg : Config)
    (upstream : pyval -> string -> gmap string pyval -> UpstreamResult)
    (req : Request) (c : UpstreamCall) (msg : string) :
  snd (generate cfg upstream req) = [c] →
  upstream (call_model c) (call_inputs c) (call_config c) = URaise msg →
  ∃ r, fst (generate cfg upstream req) = Ret r ∧ status r = 500 ∧
       json_field r "error" = Some (PStr msg).
Proof.
  intros Hlog Hup. exists (upstream_error msg). split; [| split; reflexivity].
  destruct (generate_log cfg upstream req) as [Hnil | (c' & Hgen & Hc')].
  - rewrite Hnil in Hlog. discriminate.
  - rewrite Hc' in Hlog. injection Hlog as ->.
    rewrite Hgen. unfold call_upstream. simpl. rewrite Hup. reflexivity.
Qed.

Lemma generate_upstream_raises_witness :
  snd (generate cfg_secret failing_upstream req_story_hello) =
    [{| call_model := PStr default_model; call_inputs := "hello";
        call_config := ∅ |}] ∧
  failing_upstream (PStr default_model) "hello" ∅ = URaise "quota exceeded" ∧
  ∃ r, fst (generate cfg_secret failing_upstream req_story_hello) = Ret r ∧
       status r = 500 ∧ json_field r "error" = Some (PStr "quota exceeded").
Proof.
  assert (Hlog : snd (generate cfg_secret failing_upstream req_story_hello) =
                 [{| call_model := PStr default_model; call_inputs := "hello";
                     call_config := ∅ |}]) by (vm_compute; reflexivity).
  assert (Hup : failing_upstream (PStr default_model) "hello" ∅ =
                URaise "quota exceeded") by reflexivity.
  repeat (split; [assumption |]).
  exact (generate_upstream_raises cfg_secret failing_upstream req_story_hello
           _ "quota exceeded" Hlog Hup).
Defined.

(** ** Requests with well-typed bodies *)

Lemma py_strip_string_or_falsy (o : option pyval) (dflt : string) :
  string_or_falsy o →
  ∃ s, py_strip (py_or (default PNone o) (PStr dflt)) = Ret s.
Proof.
  unfold py_or. intros [Hf | (s & ->)].
  - rewrite Hf. simpl. eauto.
  - simpl default. destruct (truthy (PStr s)); simpl; eauto.
Qed.

Lemma map_parameters_dict_or_falsy (o : option pyval) :
  dict_or_falsy o →
  ∃ gc, map_parameters (py_or (default PNone o) (PDict ∅)) = Ret gc.
Proof.
  unfold py_or. intros [Hf | (p & ->)].
  - rewrite Hf, map_parameters_dict. eauto.
  - simpl default. destruct (truthy (PDict p)); rewrite map_parameters_dict; eauto.
Qed.

(** X17: a request for which [get_json] returns, and returns [None], a
    falsy value or a JSON object, with [mode] and [inputs] strings or
    falsy and [parameters] an object or falsy, always gets a response:
    no exception leaves the handler, whatever the configuration, the
    credentials and the provider. *)
Theorem generate_well_typed (cfg : Config)
    (upstream : pyval -> string -> gmap string pyval -> UpstreamResult)
    (req : Request) :
  well_typed req → ∃ r, fst (generate cfg upstream req) = Ret r.
Proof.
  intros (d & Hd & Hmode & Hinputs & Hparams).
  unfold generate.
  destruct (String.eqb (method req) "OPTIONS"); [simpl; eauto |].
  destruct (gate_object_body_returns cfg req (ex_intro _ d Hd)) as [[r|] ->];
    [simpl; eauto |].
  destruct (negb _); [simpl; eauto |].
  unfold generate_body. rewrite Hd. unfold generate_data.
  unfold get_mode, get_inputs, get_model_name, get_parameters, py_get. cbn.
  destruct (py_strip_string_or_falsy _ "prompt" Hmode) as [mode ->].
  destruct (py_strip_string_or_falsy _ "" Hinputs) as [inputs ->].
  destruct (_ && _); [simpl; eauto |].
  destruct (map_parameters_dict_or_falsy _ Hparams) as [gc ->].
  destruct (call_upstream_inv upstream
              (py_or (default PNone (d !! "model")) (PStr default_model))
              (if String.eqb mode "random" && String.eqb inputs ""
               then default_inputs else inputs) gc) as (r & -> & _).
  simpl. eauto.
Qed.

Lemma generate_well_typed_witness :
  well_typed req_story_hello ∧
  ∃ r, fst (generate cfg_secret echo_upstream req_story_hello) = Ret r.
Proof.
  assert (Hw : well_typed req_story_hello).
  { exists (list_to_map [("mode", PStr "story"); ("inputs", PStr " hello ")]).
    split; [reflexivity |].
    split; [right; exists "story"; reflexivity |].
    split; [right; exists " hello "; reflexivity | left; reflexivity]. }
  split; [exact Hw |].
  exact (generate_well_typed cfg_secret echo_upstream req_story_hello Hw).
Defined.

(** ** The [health] handler *)

Lemma health_api_key_status (cfg : Config) (now : string) :
  json_field (health cfg now) "api_key_status" =
    Some (PStr (if truthy_str (GOOGLE_API_KEY cfg)
                then "configured" else "not configured")).
Proof. reflexivity. Qed.

(** A POST without body that carries the configured secret, if there is
    one, in the [x-api-key] header: the gate lets it through. *)
Lemma gate_passes_some_request (cfg : Config) :
  ∃ req, method req = "POST" ∧ get_json req = Ret PNone ∧
         _check_internal_auth cfg req = Ret None.
Proof.
  destruct (truthy_str (INTERNAL_API_KEY cfg)) eqn:Hs.
  - destruct (INTERNAL_API_KEY cfg) as [secret|] eqn:Hk; [| discriminate Hs].
    exists {| method := "POST"; path := "/api/generate";
              headers := {[ "x-api-key" := secret ]}; args := ∅;
              get_json := Ret PNone |}.
    split; [reflexivity | split; [reflexivity |]].
    apply (gate_single_channel _ _ secret).
    + split; [rewrite Hk; exact Hs | split; discriminate].
    + exists ∅. reflexivity.
    + exact Hk.
    + unfold bearer_channel, header_channel, query_channel, body_channel. simpl.
      rewrite lookup_singleton_ne by discriminate.
      rewrite lookup_singleton_eq, lookup_empty.
      apply elem_of_cons. right. apply elem_of_cons. left. reflexivity.
  - exists {| method := "POST"; path := "/api/generate"; headers := ∅;
              args := ∅; get_json := Ret PNone |}.
    split; [reflexivity | split; [reflexivity |]].
    unfold _check_internal_auth. rewrite Hs. reflexivity.
Qed.

(** X18: the [health] handler reports the provider key as
    "not configured" exactly when [generate] answers every POST that the
    gate lets through with the 500 "not configured" error, whatever the
    provider; its status is 200 in both cases. *)
Theorem health_agrees_with_generate (cfg : Config) (now : string) :
  status (health cfg now) = 200 ∧
  (json_field (health cfg now) "api_key_status" = Some (PStr "not configured") ↔
   ∀ upstream req,
     method req = "POST" → _check_internal_auth cfg req = Ret None →
     generate cfg upstream req = (Ret not_configured_error, [])).
Proof.
  split; [reflexivity |].
  rewrite health_api_key_status.
  destruct (truthy_str (GOOGLE_API_KEY cfg)) eqn:Hk; split.
  - discriminate.
  - intros H. destruct (gate_passes_some_request cfg) as (req & Hm & Hj & Hg).
    specialize (H echo_upstream req Hm Hg).
    unfold generate, generate_body, json_or_empty in H.
    rewrite Hm, Hg, Hk, Hj in H. simpl in H. discriminate H.
  - intros _ upstream req Hm Hg. unfold generate. rewrite Hm, Hg, Hk.
    reflexivity.
  - reflexivity.
Qed.

(** X19: on the configuration loaded from an environment, [health]
    reports "configured" exactly when [GOOGLE_API_KEY] or, failing that,
    [GOOGLE_API_TOKEN] is set to a non-empty value, and "not configured"
    otherwise. *)
Theorem health_of_environment (env : gmap string string) (now : string) :
  (json_field (health (load_config env) now) "api_key_status" =
     Some (PStr "configured") ↔
   truthy_str (env !! "GOOGLE_API_KEY") = true ∨
   truthy_str (env !! "GOOGLE_API_TOKEN") = true) ∧
  (json_field (health (load_config env) now) "api_key_status" =
     Some (PStr "not configured") ↔
   truthy_str (env !! "GOOGLE_API_KEY") = false ∧
   truthy_str (env !! "GOOGLE_API_TOKEN") = false).
Proof.
  rewrite health_api_key_status. simpl GOOGLE_API_KEY. rewrite truthy_str_or.
  destruct (truthy_str (env !! "GOOGLE_API_KEY")),
           (truthy_str (env !! "GOOGLE_API_TOKEN")); simpl;
    (split; split; try discriminate; try tauto;
     try (intros [H | H]; discriminate H);
     try (intros [H1 H2]; discriminate)).
Qed.
